(** * TempoTrail: the windowed inference serving protocol of [predict.py]

    A shallow embedding of the request handlers [demo_predict_api] and
    [demo_data_api] and of the dataset loader [load_demo_data], together with
    the properties the specification states about them.

    Conventions of the embedding.
    - Python [int] is [Z]; a Python/NumPy float is a rational [Q]: quotients
      are taken exactly, so rounding, infinities and NaN results of float
      arithmetic are outside the model.  A DataFrame cell of a float column
      is a [cell]: [None] is NaN (a missing value), [Some q] a number.
    - A DataFrame with a fresh [RangeIndex] (the loader ends with
      [reset_index(drop=True)]) is the list of its rows, label = position.
    - The trained model ([model.py], [FitRecSpeedPredictor]) is an opaque
      capability: a function from the input array to a scalar, stored in the
      predictor object.
    - The two module globals [predictor] and [demo_item_df] are the fields of
      a [World]; handlers are computations in a state monad over it.  The
      world also records, in order, every array handed to the model. *)

From Stdlib Require Import ZArith QArith Qabs List String Ascii Bool Lia.
From Stdlib Require Import Sorted.
Import ListNotations.

Open Scope Z_scope.

(** ** Python built-ins used by the handlers *)
Module Py.

(** [len(x)] *)
Definition len {A : Type} (l : list A) : Z := Z.of_nat (List.length l).

(** [int(x)] on a float truncates toward zero. *)
Definition int_of_float (x : Q) : Z := Z.quot (Qnum x) (Zpos (Qden x)).

(** [math.floor], the rounding the specification words use. *)
Definition floor (x : Q) : Z := Z.div (Qnum x) (Zpos (Qden x)).

(** Characters [str.strip()] and [int()] treat as white space. *)
Definition is_space (c : ascii) : bool :=
  let n := nat_of_ascii c in
  (Nat.eqb n 32 || (Nat.leb 9 n && Nat.leb n 13) || (Nat.leb 28 n && Nat.leb n 31))%bool.

Definition digit_val (c : ascii) : option Z :=
  let n := nat_of_ascii c in
  if (Nat.leb 48 n && Nat.leb n 57)%bool then Some (Z.of_nat (n - 48)) else None.

Fixpoint lstrip (l : list ascii) : list ascii :=
  match l with
  | c :: r => if is_space c then lstrip r else l
  | [] => []
  end.

Definition strip (l : list ascii) : list ascii := rev (lstrip (rev (lstrip l))).

(** The digits after the first one: a digit, or one underscore followed by a
    digit, repeatedly. *)
Fixpoint int_digits (acc : Z) (l : list ascii) : option Z :=
  match l with
  | [] => Some acc
  | c :: r =>
      match digit_val c with
      | Some d => int_digits (10 * acc + d) r
      | None =>
          if Ascii.eqb c "_"%char then
            match r with
            | c' :: r' =>
                match digit_val c' with
                | Some d => int_digits (10 * acc + d) r'
                | None => None
                end
            | [] => None
            end
          else None
      end
  end.

Definition int_unsigned (l : list ascii) : option Z :=
  match l with
  | c :: r => match digit_val c with Some d => int_digits d r | None => None end
  | [] => None
  end.

(** [int(s)] for a string, base 10: surrounding white space, an optional
    sign, decimal digits with single underscores between them (ASCII only:
    the non-ASCII digits and spaces Python also accepts are not
    recognised).  [None] is the [ValueError] Python raises. *)
Definition int_of_str (s : string) : option Z :=
  match strip (list_ascii_of_string s) with
  | c :: r =>
      if Ascii.eqb c "-"%char then option_map Z.opp (int_unsigned r)
      else if Ascii.eqb c "+"%char then int_unsigned r
      else int_unsigned (c :: r)
  | [] => None
  end.

(** A slice bound [i] of a sequence of length [n], as Python resolves it:
    negative bounds count from the end, everything is clamped to [0..n]. *)
Definition slice_bound (n i : Z) : Z :=
  if i <? 0 then Z.max 0 (i + n) else Z.min i n.

(** [l[lo:hi]] *)
Definition slice {A : Type} (l : list A) (lo hi : Z) : list A :=
  let a := slice_bound (len l) lo in
  let b := slice_bound (len l) hi in
  firstn (Z.to_nat (b - a)) (skipn (Z.to_nat a) l).

(** [l[i]]; [None] is the [IndexError]. *)
Definition item {A : Type} (l : list A) (i : Z) : option A :=
  if (0 <=? i) && (i <? len l) then nth_error l (Z.to_nat i)
  else if (- len l <=? i) && (i <? 0) then nth_error l (Z.to_nat (i + len l))
  else None.

Definition Qltb (x y : Q) : bool := negb (Qle_bool y x).

End Py.

(** ** The sample series (the DataFrame [demo_item_df]) *)

(** A cell of a float column: [None] is NaN. *)
Definition cell : Type := option Q.

(** One row of the DataFrame: the columns [timestamp], [heart_rate],
    [speed] and the derived [origin_timestamp]. *)
Record Sample : Type := mkSample {
  timestamp : Z;
  heart_rate : cell;
  speed : cell;
  origin_timestamp : Z
}.

Definition DataFrame : Type := list Sample.

(** A two-dimensional NumPy array: its [shape] and its rows. *)
Record ndarray : Type := mkArray {
  shape0 : Z;
  shape1 : Z;
  rows : list (list cell)
}.

Module Frame.

(** [df.empty] *)
Definition empty (df : DataFrame) : bool :=
  match df with [] => true | _ :: _ => false end.

(** [df.iloc[lo:hi]] *)
Definition iloc_slice (df : DataFrame) (lo hi : Z) : DataFrame := Py.slice df lo hi.

(** [df[col].iloc[i]] is [option_map col (iloc df i)]. *)
Definition iloc (df : DataFrame) (i : Z) : option Sample := Py.item df i.

(** [df.loc[label]] under a [RangeIndex]; [None] is the [KeyError]. *)
Definition loc (df : DataFrame) (label : nat) : option Sample := nth_error df label.

(** [df[['speed', 'heart_rate']].values] *)
Definition values_speed_heart_rate (df : DataFrame) : ndarray :=
  {| shape0 := Py.len df;
     shape1 := 2;
     rows := map (fun r => [speed r; heart_rate r]) df |}.

(** The scan behind [Series.idxmin]: the running minimum is replaced only by
    a strictly smaller value, so the first occurrence of the minimum wins. *)
Fixpoint idxmin_from (best_i : nat) (best : Q) (i : nat) (l : list Q) : nat :=
  match l with
  | [] => best_i
  | x :: r =>
      if Py.Qltb x best then idxmin_from i x (S i) r
      else idxmin_from best_i best (S i) r
  end.

(** [s.idxmin()]; [None] is the [ValueError] raised on an empty series. *)
Definition idxmin (l : list Q) : option nat :=
  match l with
  | [] => None
  | x :: r => Some (idxmin_from 0%nat x 1%nat r)
  end.

(** [(df['origin_timestamp'] - t).abs()] *)
Definition abs_distance (df : DataFrame) (t : Q) : list Q :=
  map (fun r => Qabs (inject_Z (origin_timestamp r) - t)) df.

End Frame.

(** ** Process state and the handler monad *)

(** Modelled from the spec: the predictor object, whose class
    [FitRecSpeedPredictor] lives in [model.py] and is not among the sources.
    It holds the loaded model ([predictor.model], [None] until loaded), an
    opaque capability that turns an input array into one scalar, and the
    three configuration values the handler reads. *)
Record Predictor : Type := mkPredictor {
  model : option (ndarray -> Q);
  sampling_rate : Q;
  window_duration : Q;
  prediction_duration : Q
}.

(** The module globals, and the record of the arrays passed to the model. *)
Record World : Type := mkWorld {
  predictor : option Predictor;
  demo_item_df : option DataFrame;
  model_calls : list ndarray
}.

Definition M (A : Type) : Type := World -> A * World.

Definition ret {A : Type} (a : A) : M A := fun w => (a, w).

Definition bind {A B : Type} (c : M A) (k : A -> M B) : M B :=
  fun w => let (a, w') := c w in k a w'.

Notation "x <- c ;; k" := (bind c (fun x => k))
  (at level 61, c at next level, right associativity).

Definition read_globals : M (option Predictor * option DataFrame) :=
  fun w => ((predictor w, demo_item_df w), w).

(** [predictor.predict(input_array)]: runs the model on the array. *)
Definition record_call (input_array : ndarray) (w : World) : World :=
  {| predictor := predictor w;
     demo_item_df := demo_item_df w;
     model_calls := model_calls w ++ [input_array] |}.

Definition predict (m : ndarray -> Q) (input_array : ndarray) : M Q :=
  fun w => (m input_array, record_call input_array w).

(** ** Responses *)

(** The error bodies of the two endpoints, under the names of the
    specification's error taxonomy; each carries the values its message
    interpolates. *)
Inductive Error : Type :=
| NotInitialized          (* Service not initialized or demo data/model not loaded *)
| DataNotLoaded           (* Demo data not loaded *)
| MissingParameter (name : string)               (* Missing 'idx' / 't' parameter *)
| InvalidParameter (raw : string)                (* Invalid parameter value: ... *)
| InvalidTParameter                              (* Invalid 't' parameter, must be a number *)
| IndexOutOfRange (idx length : Z)               (* idx ... is out of bounds ... *)
| InvalidSamplingRate                            (* Invalid model sampling rate configuration. *)
| InvalidWindowConfiguration                     (* ... (window_samples <= 0) *)
| InsufficientWindow (have window_samples idx : Z) (* Not enough data points ... *)
| InvalidInputShape (shape : Z * Z) (window_samples : Z)
| InternalError.                                 (* An internal error occurred: ... *)

(** The success body of [/demo_predict]. *)
Record Prediction : Type := mkPrediction {
  predicted_speed : Q;
  next_idx : Z;
  current_input_end_origin_timestamp : Q;
  next_idx_origin_timestamp : Q
}.

Inductive Json : Type :=
| JError (e : Error)
| JPrediction (p : Prediction)
| JRow (r : Sample).

(** A response: [jsonify(body), status]. *)
Definition Response : Type := (Json * Z)%type.

Definition jsonify_error (e : Error) (status : Z) : Response := (JError e, status).

(** ** [demo_predict_api] *)

(** [int(predictor.window_duration / predictor.sampling_rate)] *)
Definition model_window_samples (p : Predictor) : Z :=
  Py.int_of_float (window_duration p / sampling_rate p).

(** [samples_to_advance], after the [<= 0] adjustment. *)
Definition samples_to_advance (p : Predictor) : Z :=
  let s := Py.int_of_float (prediction_duration p / sampling_rate p) in
  if s <=? 0 then 1 else s.

(** [min(idx + samples_to_advance, len(demo_item_df) - 1)] *)
Definition next_idx_val (p : Predictor) (df : DataFrame) (idx : Z) : Z :=
  Z.min (idx + samples_to_advance p) (Py.len df - 1).

(** [demo_item_df.iloc[start_index_for_model_input : idx + 1]] *)
Definition input_sequence_df (df : DataFrame) (window_samples idx : Z) : DataFrame :=
  let start_index_for_model_input := Z.max 0 (idx - window_samples + 1) in
  Frame.iloc_slice df start_index_for_model_input (idx + 1).

(** The sentinel [-1.0] the handler starts from. *)
Definition sentinel : Q := (-1) # 1.

(** The bounds test guarding the read of the next origin timestamp. *)
Definition next_idx_in_bounds (df : DataFrame) (n : Z) : bool :=
  (0 <=? n) && (n <? Py.len df).

(** The value of [next_idx_origin_timestamp]: the sentinel unless the
    bounds test passes; [None] is an [IndexError] of [iloc]. *)
Definition lookup_next_idx_origin_timestamp (df : DataFrame) (n : Z) : option Q :=
  if next_idx_in_bounds df n
  then option_map (fun r => inject_Z (origin_timestamp r)) (Frame.iloc df n)
  else Some sentinel.

(** From the shape test on [input_array] to the response. *)
Definition predict_from_array (p : Predictor) (m : ndarray -> Q) (df : DataFrame)
    (idx window_samples : Z) (input_array : ndarray) : M Response :=
  if negb (shape0 input_array =? window_samples) || negb (shape1 input_array =? 2) then
    ret (jsonify_error
           (InvalidInputShape (shape0 input_array, shape1 input_array) window_samples) 500)
  else
    match Frame.iloc df idx with
    | None => ret (jsonify_error InternalError 500)
    | Some r_idx =>
        speed_pred <- predict m input_array ;;
        match lookup_next_idx_origin_timestamp df (next_idx_val p df idx) with
        | None => ret (jsonify_error InternalError 500)
        | Some next_ts =>
            ret (JPrediction
                   {| predicted_speed := speed_pred;
                      next_idx := next_idx_val p df idx;
                      current_input_end_origin_timestamp :=
                        inject_Z (origin_timestamp r_idx);
                      next_idx_origin_timestamp := next_ts |}, 200)
        end
    end.

(** From the bounds test on the parsed [idx] to the response. *)
Definition predict_at (p : Predictor) (m : ndarray -> Q) (df : DataFrame)
    (idx : Z) : M Response :=
  if negb ((0 <=? idx) && (idx <? Py.len df)) then
    ret (jsonify_error (IndexOutOfRange idx (Py.len df)) 400)
  else if Qle_bool (sampling_rate p) 0 then
    ret (jsonify_error InvalidSamplingRate 500)
  else
    let window_samples := model_window_samples p in
    if window_samples <=? 0 then
      ret (jsonify_error InvalidWindowConfiguration 500)
    else
      let window := input_sequence_df df window_samples idx in
      if Py.len window <? window_samples then
        ret (jsonify_error (InsufficientWindow (Py.len window) window_samples idx) 400)
      else
        predict_from_array p m df idx window_samples
          (Frame.values_speed_heart_rate window).

(** The handler of [GET /demo_predict]; [idx_str] is
    [request.args.get('idx')]. *)
Definition demo_predict_api (idx_str : option string) : M Response :=
  g <- read_globals ;;
  match g with
  | (Some p, Some df) =>
      match model p with
      | Some m =>
          if Frame.empty df then ret (jsonify_error NotInitialized 500)
          else
            match idx_str with
            | None => ret (jsonify_error (MissingParameter "idx") 400)
            | Some s =>
                match Py.int_of_str s with
                | None => ret (jsonify_error (InvalidParameter s) 400)
                | Some idx => predict_at p m df idx
                end
            end
      | None => ret (jsonify_error NotInitialized 500)
      end
  | _ => ret (jsonify_error NotInitialized 500)
  end.

(** ** [demo_data_api] *)

Section DataEndpoint.

(** [float(t_str)]: Python's float parser, [None] for its [ValueError]. *)
Variable float_of_str : string -> option Q.

(** The handler of [GET /demo_data]; [t_str] is [request.args.get('t')]. *)
Definition demo_data_api (t_str : option string) : M Response :=
  g <- read_globals ;;
  match snd g with
  | None => ret (jsonify_error DataNotLoaded 500)
  | Some df =>
      if Frame.empty df then ret (jsonify_error DataNotLoaded 500)
      else
        match t_str with
        | None => ret (jsonify_error (MissingParameter "t") 400)
        | Some s =>
            match float_of_str s with
            | None => ret (jsonify_error InvalidTParameter 400)
            | Some t =>
                match Frame.idxmin (Frame.abs_distance df t) with
                | None => ret (jsonify_error InvalidTParameter 400)
                | Some closest_idx =>
                    match Frame.loc df closest_idx with
                    | None => ret (jsonify_error InternalError 500)
                    | Some result_row => ret (JRow result_row, 200)
                    end
                end
            end
        end
  end.

End DataEndpoint.

(** ** [load_demo_data] *)

(** The three arrays read from [session_dict] (the file handling and the
    selection of the session come before and are not modelled).  Timestamps
    are integer seconds. *)
Record Session : Type := mkSession {
  session_timestamp : list Z;
  session_heart_rate : list cell;
  session_speed : list cell
}.

(** A row of the frame before [origin_timestamp] is assigned. *)
Record RawRow : Type := mkRawRow {
  raw_timestamp : Z;
  raw_heart_rate : cell;
  raw_speed : cell
}.

Inductive LoadError : Type :=
| ArraysLengthMismatch          (* pd.DataFrame: All arrays must be of the same length *)
| EmptyAfterInitialProcessing   (* Demo data DataFrame is empty after initial processing. *)
| EmptyAfterBasicCleaning.      (* Demo data DataFrame is empty after basic cleaning. *)

Inductive Loaded : Type :=
| Raised (e : LoadError)
| Returned (df : DataFrame).

Module Loader.

(** [pd.DataFrame({'timestamp': ..., 'heart_rate': ..., 'speed': ...})] *)
Fixpoint make_frame (ts : list Z) (hr sp : list cell) : option (list RawRow) :=
  match ts, hr, sp with
  | [], [], [] => Some []
  | t :: ts', h :: hr', s :: sp' =>
      option_map (cons (mkRawRow t h s)) (make_frame ts' hr' sp')
  | _, _, _ => None
  end.

Fixpoint insert_by_timestamp (x : RawRow) (l : list RawRow) : list RawRow :=
  match l with
  | [] => [x]
  | y :: r =>
      if raw_timestamp x <=? raw_timestamp y then x :: l
      else y :: insert_by_timestamp x r
  end.

(** [df.sort_values('timestamp')]: ascending by timestamp (rows of equal
    timestamp are kept in their order here; pandas leaves it unspecified). *)
Definition sort_values (l : list RawRow) : list RawRow :=
  fold_right insert_by_timestamp [] l.

(** [df['origin_timestamp'] = df['timestamp'] - df['timestamp'].iloc[0]] *)
Definition assign_origin (t0 : Z) (l : list RawRow) : DataFrame :=
  map (fun r => mkSample (raw_timestamp r) (raw_heart_rate r) (raw_speed r)
                         (raw_timestamp r - t0)) l.

Definition notna (c : cell) : bool :=
  match c with Some _ => true | None => false end.

(** [df.dropna(subset=['heart_rate', 'speed', 'timestamp'])]; an integer
    timestamp is never missing. *)
Definition dropna (df : DataFrame) : DataFrame :=
  filter (fun r => notna (heart_rate r) && notna (speed r)) df.

(** [c >= 0] and [c > 0] on a cell; a comparison with NaN is false. *)
Definition ge0 (c : cell) : bool :=
  match c with Some q => Qle_bool 0 q | None => false end.

Definition gt0 (c : cell) : bool :=
  match c with Some q => Py.Qltb 0 q | None => false end.

(** [df[(df['speed'] >= 0) & (df['heart_rate'] > 0)]] *)
Definition keep_valid (df : DataFrame) : DataFrame :=
  filter (fun r => ge0 (speed r) && gt0 (heart_rate r)) df.

End Loader.

(** From the extraction of the three arrays to the returned frame. *)
Definition load_demo_data (s : Session) : Loaded :=
  match Loader.make_frame (session_timestamp s) (session_heart_rate s)
          (session_speed s) with
  | None => Raised ArraysLengthMismatch
  | Some rows0 =>
      match Loader.sort_values rows0 with
      | [] => Raised EmptyAfterInitialProcessing
      | (first :: _) as sorted =>
          let df := Loader.assign_origin (raw_timestamp first) sorted in
          let df := Loader.dropna df in
          let df := Loader.keep_valid df in
          match df with
          | [] => Raised EmptyAfterBasicCleaning
          | _ :: _ => Returned df
          end
      end
  end.

(** ** [initialize_app] *)

(** The globals after start-up.  [loaded_predictor] is the outcome of
    constructing the predictor and loading its configuration, [session] the
    outcome of reading the data file; [None] stands for an exception.  Any
    failure leaves both globals [None]. *)
Definition initialize_app (loaded_predictor : option Predictor)
    (session : option Session) : World :=
  let failed := {| predictor := None; demo_item_df := None; model_calls := [] |} in
  match loaded_predictor with
  | None => failed
  | Some p =>
      match session with
      | None => failed
      | Some s =>
          match load_demo_data s with
          | Raised _ => failed
          | Returned df =>
              {| predictor := Some p; demo_item_df := Some df; model_calls := [] |}
          end
      end
  end.

(** ** Running requests *)

(** The negation of the guard that opens [demo_predict_api]. *)
Definition initialized (w : World) : bool :=
  match predictor w, demo_item_df w with
  | Some p, Some df =>
      match model p with
      | Some _ => negb (Frame.empty df)
      | None => false
      end
  | _, _ => false
  end.

(** The negation of the guard that opens [demo_data_api]. *)
Definition data_loaded (w : World) : bool :=
  match demo_item_df w with
  | Some df => negb (Frame.empty df)
  | None => false
  end.

Inductive Request : Type :=
| GetDemoPredict (idx_str : option string)
| GetDemoData (t_str : option string).

Definition handle (float_of_str : string -> option Q) (r : Request) : M Response :=
  match r with
  | GetDemoPredict idx_str => demo_predict_api idx_str
  | GetDemoData t_str => demo_data_api float_of_str t_str
  end.

(** The world after serving the requests in order. *)
Fixpoint serve (float_of_str : string -> option Q) (rs : list Request) (w : World) : World :=
  match rs with
  | [] => w
  | r :: rs' => serve float_of_str rs' (snd (handle float_of_str r w))
  end.

(** ** Notions used in the statements *)

(** The response of a request that passes every test. *)
Definition success (p : Predictor) (m : ndarray -> Q) (df : DataFrame)
    (idx : Z) (r_idx r_next : Sample) : Response :=
  (JPrediction
     {| predicted_speed :=
          m (Frame.values_speed_heart_rate
               (input_sequence_df df (model_window_samples p) idx));
        next_idx := next_idx_val p df idx;
        current_input_end_origin_timestamp := inject_Z (origin_timestamp r_idx);
        next_idx_origin_timestamp := inject_Z (origin_timestamp r_next) |}, 200).

(** What the model may be given: an array of [window_samples] rows of two
    cells, and a shape that says so. *)
Definition window_shaped (ws : Z) (a : ndarray) : Prop :=
  shape0 a = ws /\ shape1 a = 2
  /\ Py.len (rows a) = ws /\ Forall (fun row => Py.len row = 2) (rows a).

(** [predictor.model is not None] *)
Definition has_model (p : Predictor) : bool :=
  match model p with Some _ => true | None => false end.


(** The first row of a list has the least timestamp. *)
Definition head_least (l : list RawRow) : Prop :=
  match l with
  | [] => True
  | x :: r => forall y, In y r -> raw_timestamp x <= raw_timestamp y
  end.

(** ** Concrete inputs *)

Definition sample_at (t : Z) : Sample :=
  mkSample (1000 + t) (Some (inject_Z (120 + t))) (Some (inject_Z t)) t.

(** Five samples, one second apart. *)
Definition series5 : DataFrame := map sample_at [0; 1; 2; 3; 4].


(** A stand-in model: the number of rows it was given. *)
Definition count_rows (a : ndarray) : Q := inject_Z (Py.len (rows a)).

(** One sample per second, a window of three samples, a stride of two. *)
Definition predictor312 : Predictor :=
  {| model := Some count_rows;
     sampling_rate := 1;
     window_duration := 3;
     prediction_duration := 2 |}.

Definition world5 : World :=
  {| predictor := Some predictor312;
     demo_item_df := Some series5;
     model_calls := [] |}.

(** A float parser for the literals used below. *)
Definition float_of_literal (s : string) : option Q :=
  if String.eqb s "3" then Some 3%Q
  else if String.eqb s "3.5" then Some (7 # 2)
  else if String.eqb s "0" then Some 0%Q
  else None.

(** A world whose predictor object exists but holds no model, with the
    series loaded: the state the test [predictor.model is None] is for. *)
Definition world_without_model : World :=
  {| predictor :=
       Some {| model := None; sampling_rate := 1;
               window_duration := 3; prediction_duration := 2 |};
     demo_item_df := Some series5;
     model_calls := [] |}.

(** The session behind [series5]. *)
Definition session5 : Session :=
  {| session_timestamp := [1000; 1001; 1002; 1003; 1004];
     session_heart_rate := map (fun t => Some (inject_Z (120 + t))) [0; 1; 2; 3; 4];
     session_speed := map (fun t => Some (inject_Z t)) [0; 1; 2; 3; 4] |}.

(** A session whose earliest record has no heart rate yet (0 bpm). *)
Definition session_late_heart_rate : Session :=
  {| session_timestamp := [10; 20];
     session_heart_rate := [Some 0%Q; Some (100 # 1)];
     session_speed := [Some 1%Q; Some 1%Q] |}.

(** ** [extract_fit_data] *)

(** One [record] message of the FIT file: the values under [timestamp]
    (a date, here in nanoseconds since the epoch), [heart_rate] and [speed];
    [None] where the field is absent. *)
Record FitRecord : Type := mkFitRecord {
  fit_timestamp : option Z;
  fit_heart_rate : cell;
  fit_speed : cell
}.

(** A row of the frame [extract_fit_data] returns. *)
Record FitRow : Type := mkFitRow {
  row_timestamp : Z;
  row_heart_rate : Q;
  row_speed : Q;
  row_timestamp_dt : Z;
  row_origin_timestamp : Z
}.

Module Fit.

(** [df.dropna()] followed by the three column assignments: the date kept
    as [timestamp_dt], the speed times 3.6, the timestamp in whole seconds. *)
Definition complete_row (r : FitRecord) : option (Z * Q * Q * Z) :=
  match fit_timestamp r, fit_heart_rate r, fit_speed r with
  | Some dt, Some hr, Some sp => Some (dt / 10 ^ 9, hr, (sp * (36 # 10))%Q, dt)
  | _, _, _ => None
  end.

Fixpoint complete_rows (l : list FitRecord) : list (Z * Q * Q * Z) :=
  match l with
  | [] => []
  | r :: l' =>
      match complete_row r with
      | Some x => x :: complete_rows l'
      | None => complete_rows l'
      end
  end.

(** [df['origin_timestamp'] = df['timestamp'] - df['timestamp'].iloc[0]] *)
Definition with_origin (t0 : Z) (x : Z * Q * Q * Z) : FitRow :=
  let '(ts, hr, sp, dt) := x in mkFitRow ts hr sp dt (ts - t0).

End Fit.

(** [extract_fit_data()]; [fitfile] holds the [record] messages of the file
    in order, [None] when reading it raises.  The result [None] is Python's
    [None]: nothing was collected, or an exception was caught (with no
    complete record, [iloc[0]] raises). *)
Definition extract_fit_data (fitfile : option (list FitRecord)) : option (list FitRow) :=
  match fitfile with
  | None => None
  | Some [] => None
  | Some records =>
      match Fit.complete_rows records with
      | [] => None
      | (first :: _) as df =>
          Some (map (Fit.with_origin (fst (fst (fst first)))) df)
      end
  end.

(** ** Further notions used in the statements *)

(** The status each error body is sent with. *)
Definition error_status (e : Error) : Z :=
  match e with
  | MissingParameter _ | InvalidParameter _ | InvalidTParameter
  | IndexOutOfRange _ _ | InsufficientWindow _ _ _ => 400
  | NotInitialized | DataNotLoaded | InvalidSamplingRate
  | InvalidWindowConfiguration | InvalidInputShape _ _ | InternalError => 500
  end.

(** The error bodies [demo_predict_api] can send. *)
Definition predict_error (e : Error) : bool :=
  match e with
  | NotInitialized | MissingParameter _ | InvalidParameter _
  | IndexOutOfRange _ _ | InvalidSamplingRate | InvalidWindowConfiguration
  | InsufficientWindow _ _ _ => true
  | _ => false
  end.

(** Origin timestamps do not decrease along the series. *)
Definition origins_sorted (df : DataFrame) : Prop :=
  StronglySorted Z.le (map origin_timestamp df).

(** A row of the session is kept by the cleaning. *)
Definition valid_row (hr sp : cell) : bool :=
  Loader.notna hr && Loader.notna sp && (Loader.ge0 sp && Loader.gt0 hr).

(** Two rows of the frame in timestamp order. *)
Definition le_raw_timestamp (a b : RawRow) : Prop :=
  raw_timestamp a <= raw_timestamp b.

(** A FIT record has all three fields. *)
Definition is_complete (r : FitRecord) : bool :=
  match Fit.complete_row r with Some _ => true | None => false end.


(** * Properties *)

(** Decides one integer comparison of the goal by the arithmetic facts at
    hand, and simplifies the boolean around it. *)
Ltac bounds_test :=
  match goal with
  | |- context [Z.leb ?a ?b] => destruct (Z.leb_spec a b); try lia
  | |- context [Z.ltb ?a ?b] => destruct (Z.ltb_spec a b); try lia
  end;
  cbn [andb orb negb].

(** ** Sequences *)

Lemma len_map {A B : Type} (f : A -> B) (l : list A) : Py.len (map f l) = Py.len l.
Proof. unfold Py.len. now rewrite length_map. Qed.

Lemma empty_false_len (df : DataFrame) : Frame.empty df = false <-> 0 < Py.len df.
Proof.
  destruct df as [|r df]; cbn.
  - split; [discriminate | intro H; inversion H].
  - split; [intros _; unfold Py.len; cbn; lia | reflexivity].
Qed.

(** With both bounds inside the sequence a slice is a [skipn] cut by a
    [firstn], and has the expected length. *)
Lemma slice_inside {A : Type} (l : list A) (lo hi : Z) :
  0 <= lo <= hi -> hi <= Py.len l ->
  Py.slice l lo hi = firstn (Z.to_nat (hi - lo)) (skipn (Z.to_nat lo) l)
  /\ Py.len (Py.slice l lo hi) = hi - lo.
Proof.
  intros Hlo Hhi. unfold Py.slice, Py.slice_bound.
  destruct (Z.ltb_spec lo 0) as [Hneg|_]; [lia|].
  destruct (Z.ltb_spec hi 0) as [Hneg|_]; [lia|].
  rewrite (Z.min_l lo) by lia. rewrite (Z.min_l hi) by lia.
  split; [reflexivity|].
  unfold Py.len in *. rewrite length_firstn, length_skipn. lia.
Qed.

Lemma item_inside {A : Type} (l : list A) (i : Z) :
  0 <= i < Py.len l ->
  Py.item l i = nth_error l (Z.to_nat i) /\ exists x, Py.item l i = Some x.
Proof.
  intros Hi. unfold Py.item.
  destruct (Z.leb_spec 0 i) as [_|H0]; [|lia].
  destruct (Z.ltb_spec i (Py.len l)) as [_|H1]; [|lia]. cbn.
  split; [reflexivity|].
  destruct (nth_error l (Z.to_nat i)) as [x|] eqn:E; [now exists x|].
  apply nth_error_None in E. unfold Py.len in Hi. lia.
Qed.

(** ** The window *)

(** For an index of the series, the slice taken by the handler holds
    [min(window_samples, idx + 1)] samples. *)
Lemma len_input_sequence_df (df : DataFrame) (ws idx : Z) :
  0 < ws -> 0 <= idx < Py.len df ->
  Py.len (input_sequence_df df ws idx) = Z.min ws (idx + 1).
Proof.
  intros Hws Hidx. unfold input_sequence_df, Frame.iloc_slice.
  destruct (slice_inside df (Z.max 0 (idx - ws + 1)) (idx + 1)) as [_ Hl]; lia.
Qed.

(** With enough history the window is the [window_samples] samples that
    end at [idx]. *)
Lemma input_sequence_df_full (df : DataFrame) (ws idx : Z) :
  0 < ws -> ws <= idx + 1 <= Py.len df ->
  input_sequence_df df ws idx
  = firstn (Z.to_nat ws) (skipn (Z.to_nat (idx - ws + 1)) df).
Proof.
  intros Hws Hidx. unfold input_sequence_df, Frame.iloc_slice.
  destruct (slice_inside df (Z.max 0 (idx - ws + 1)) (idx + 1)) as [Hs _]; try lia.
  rewrite Hs. rewrite Z.max_r by lia. f_equal. lia.
Qed.

Lemma input_sequence_df_last (df : DataFrame) (ws idx : Z) :
  0 < ws -> ws <= idx + 1 <= Py.len df ->
  Py.item (input_sequence_df df ws idx) (ws - 1) = Py.item df idx.
Proof.
  intros Hws Hidx.
  destruct (item_inside df idx) as [Hd _]; [lia|].
  destruct (item_inside (input_sequence_df df ws idx) (ws - 1)) as [Hw _].
  { rewrite len_input_sequence_df; lia. }
  rewrite Hd, Hw, input_sequence_df_full by assumption.
  rewrite nth_error_firstn.
  destruct (Nat.ltb_spec (Z.to_nat (ws - 1)) (Z.to_nat ws)) as [_|H]; [|lia].
  rewrite nth_error_skipn. f_equal. lia.
Qed.

(** ** The handler, stage by stage *)

Lemma shape_values (df : DataFrame) :
  shape0 (Frame.values_speed_heart_rate df) = Py.len df
  /\ shape1 (Frame.values_speed_heart_rate df) = 2
  /\ Py.len (rows (Frame.values_speed_heart_rate df)) = Py.len df
  /\ Forall (fun row => Py.len row = 2) (rows (Frame.values_speed_heart_rate df)).
Proof.
  repeat split; cbn; try apply len_map.
  apply Forall_forall. intros row Hin. apply in_map_iff in Hin.
  destruct Hin as [r [<- _]]. reflexivity.
Qed.

Lemma initialized_inv (w : World) :
  initialized w = true ->
  exists p m df, predictor w = Some p /\ model p = Some m
                 /\ demo_item_df w = Some df /\ 0 < Py.len df.
Proof.
  unfold initialized. intros H.
  destruct (predictor w) as [p|]; [|discriminate].
  destruct (demo_item_df w) as [df|]; [|discriminate].
  destruct (model p) as [m|] eqn:Em; [|discriminate].
  exists p, m, df. repeat split; try assumption.
  apply empty_false_len. now apply negb_true_iff.
Qed.

(** An initialised world with a parsable [idx] runs [predict_at]. *)
Lemma demo_predict_api_parsed (w : World) p m df (s : string) (idx : Z) :
  predictor w = Some p -> model p = Some m -> demo_item_df w = Some df ->
  0 < Py.len df -> Py.int_of_str s = Some idx ->
  demo_predict_api (Some s) w = predict_at p m df idx w.
Proof.
  intros Hp Hm Hdf Hlen Hs.
  unfold demo_predict_api, bind, read_globals. rewrite Hp, Hdf, Hm.
  apply empty_false_len in Hlen. rewrite Hlen, Hs. reflexivity.
Qed.

(** ** The advance stride *)

Lemma samples_to_advance_pos (p : Predictor) : 1 <= samples_to_advance p.
Proof.
  unfold samples_to_advance. cbv zeta.
  destruct (Z.leb_spec (Py.int_of_float (prediction_duration p / sampling_rate p)) 0); lia.
Qed.

(** Truncation and floor differ only below zero, where the stride is 1
    either way. *)
Lemma samples_to_advance_floor (p : Predictor) :
  samples_to_advance p
  = Z.max 1 (Py.floor (prediction_duration p / sampling_rate p)).
Proof.
  unfold samples_to_advance, Py.int_of_float, Py.floor. cbv zeta.
  set (q := (prediction_duration p / sampling_rate p)%Q).
  destruct (Z.le_gt_cases 0 (Qnum q)) as [Hn|Hn].
  - rewrite Z.quot_div_nonneg by lia.
    destruct (Z.leb_spec (Qnum q / Z.pos (Qden q)) 0); lia.
  - assert (Hq : Z.quot (Qnum q) (Z.pos (Qden q)) <= 0).
    { apply Z.quot_le_upper_bound; lia. }
    assert (Hd : Qnum q / Z.pos (Qden q) < 0).
    { apply Z.div_lt_upper_bound; lia. }
    destruct (Z.leb_spec (Z.quot (Qnum q) (Z.pos (Qden q))) 0); lia.
Qed.

Lemma next_idx_val_bounds (p : Predictor) (df : DataFrame) (idx : Z) :
  0 <= idx < Py.len df ->
  idx <= next_idx_val p df idx <= Py.len df - 1.
Proof.
  intros H. unfold next_idx_val. pose proof (samples_to_advance_pos p). lia.
Qed.

Lemma next_idx_lookup (p : Predictor) (df : DataFrame) (idx : Z) :
  0 <= idx < Py.len df ->
  next_idx_in_bounds df (next_idx_val p df idx) = true
  /\ exists r, Frame.iloc df (next_idx_val p df idx) = Some r
            /\ lookup_next_idx_origin_timestamp df (next_idx_val p df idx)
               = Some (inject_Z (origin_timestamp r)).
Proof.
  intros H. pose proof (next_idx_val_bounds p df idx H) as Hb.
  assert (Hin : next_idx_in_bounds df (next_idx_val p df idx) = true).
  { unfold next_idx_in_bounds. apply andb_true_iff. split.
    - apply Z.leb_le. lia.
    - apply Z.ltb_lt. lia. }
  split; [exact Hin|].
  destruct (item_inside df (next_idx_val p df idx)) as [_ [r Hr]]; [lia|].
  exists r. unfold lookup_next_idx_origin_timestamp, Frame.iloc.
  rewrite Hin, Hr. split; reflexivity.
Qed.

Lemma sampling_rate_ok (p : Predictor) :
  (0 < sampling_rate p)%Q -> Qle_bool (sampling_rate p) 0 = false.
Proof.
  intros H. destruct (Qle_bool (sampling_rate p) 0) eqn:E; [|reflexivity].
  apply Qle_bool_iff in E. exfalso. exact (Qlt_not_le _ _ H E).
Qed.

Lemma predict_at_success (p : Predictor) (m : ndarray -> Q) (df : DataFrame)
    (idx : Z) (w : World) :
  (0 < sampling_rate p)%Q -> 0 < model_window_samples p ->
  model_window_samples p <= idx + 1 <= Py.len df ->
  exists r_idx r_next,
    Frame.iloc df idx = Some r_idx
    /\ Frame.iloc df (next_idx_val p df idx) = Some r_next
    /\ predict_at p m df idx w
       = (success p m df idx r_idx r_next,
          record_call (Frame.values_speed_heart_rate
                         (input_sequence_df df (model_window_samples p) idx)) w).
Proof.
  intros Hsr Hws Hidx.
  assert (Hin : 0 <= idx < Py.len df) by lia.
  destruct (item_inside df idx Hin) as [_ [r_idx Hr]].
  destruct (next_idx_lookup p df idx Hin) as [_ [r_next [Hn Hl]]].
  exists r_idx, r_next. repeat split; try assumption.
  unfold predict_at. do 2 bounds_test.
  rewrite (sampling_rate_ok p Hsr). cbv zeta. bounds_test.
  rewrite len_input_sequence_df by lia. bounds_test.
  unfold predict_from_array.
  destruct (shape_values (input_sequence_df df (model_window_samples p) idx))
    as [S0 [S1 _]].
  rewrite S0, S1, len_input_sequence_df by lia.
  rewrite (Z.min_l (model_window_samples p)) by lia.
  rewrite !Z.eqb_refl. cbn [negb orb].
  unfold Frame.iloc in *. rewrite Hr.
  unfold bind, predict, ret. rewrite Hl. reflexivity.
Qed.

Lemma item_last {A : Type} (l : list A) :
  0 < Py.len l -> Py.item l (-1) = Py.item l (Py.len l - 1).
Proof.
  intros H. destruct (item_inside l (Py.len l - 1)) as [E _]; [lia|].
  rewrite E. unfold Py.item.
  destruct (Z.leb_spec 0 (-1)) as [|_]; [lia|]. cbn [andb].
  destruct (Z.leb_spec (- Py.len l) (-1)) as [_|]; [|lia].
  destruct (Z.ltb_spec (-1) 0) as [_|]; [|lia]. cbn [andb].
  f_equal. lia.
Qed.

(** ** Requests to an operable service

    The standing assumptions of the data model: predictor, model and series
    are loaded and the sampling rate is positive. *)

Section OperableService.

Variables (w : World) (p : Predictor) (m : ndarray -> Q) (df : DataFrame).

Hypothesis predictor_loaded : predictor w = Some p.
Hypothesis model_loaded : model p = Some m.
Hypothesis series_loaded : demo_item_df w = Some df.
Hypothesis sampling_rate_positive : (0 < sampling_rate p)%Q.

(** C1.  In an initialised service with a valid configuration, for every
    index [idx] with [window_samples <= idx + 1 <= length()], the window the
    Predict operation extracts is the slice of the series from
    [max(0, idx - window_samples + 1)] to [idx + 1]; it has exactly
    [window_samples] samples, its last element is the sample at [idx], and
    it is this window (its speed and heart-rate columns) that the model
    receives and whose prediction is returned. *)
Theorem predict_window_exact (s : string) (idx : Z) :
  0 < model_window_samples p ->
  Py.int_of_str s = Some idx ->
  model_window_samples p <= idx + 1 <= Py.len df ->
  let window_samples := model_window_samples p in
  let window := input_sequence_df df window_samples idx in
  window = Py.slice df (Z.max 0 (idx - window_samples + 1)) (idx + 1)
  /\ window = firstn (Z.to_nat window_samples)
                (skipn (Z.to_nat (idx - window_samples + 1)) df)
  /\ Py.len window = window_samples
  /\ (exists r, Py.item df idx = Some r /\ Py.item window (-1) = Some r)
  /\ (exists pr,
        fst (demo_predict_api (Some s) w) = (JPrediction pr, 200)
        /\ predicted_speed pr = m (Frame.values_speed_heart_rate window))
  /\ model_calls (snd (demo_predict_api (Some s) w))
     = model_calls w ++ [Frame.values_speed_heart_rate window].
Proof.
  intros Hws Hs Hidx window_samples window.
  assert (Hlen : Py.len window = window_samples).
  { unfold window. rewrite len_input_sequence_df; lia. }
  split; [reflexivity|].
  split; [now apply input_sequence_df_full|].
  split; [exact Hlen|].
  split.
  - destruct (item_inside df idx) as [_ [r Hr]]; [lia|].
    exists r. split; [exact Hr|].
    rewrite item_last by lia. rewrite Hlen.
    unfold window. rewrite input_sequence_df_last; [exact Hr | lia | exact Hidx].
  - rewrite (demo_predict_api_parsed w p m df s idx) by (try assumption; lia).
    destruct (predict_at_success p m df idx w sampling_rate_positive Hws Hidx)
      as [r_idx [r_next [_ [_ E]]]].
    rewrite E. split; [|reflexivity].
    eexists. split; reflexivity.
Qed.

(** C2, amended.  For every request index [idx] with
    [window_samples - 1 <= idx < length()] the Predict operation succeeds and
    returns [next_idx = min(idx + advance_samples, length() - 1)] with
    [advance_samples = max(1, floor(prediction_duration / sampling_rate))];
    [next_idx] lies in [[idx, length() - 1]], and when
    [idx + advance_samples >= length()] it is [length() - 1]. *)
Theorem next_idx_saturates (s : string) (idx : Z) :
  0 < model_window_samples p ->
  Py.int_of_str s = Some idx ->
  model_window_samples p <= idx + 1 <= Py.len df ->
  let advance_samples :=
    Z.max 1 (Py.floor (prediction_duration p / sampling_rate p)) in
  exists pr,
    fst (demo_predict_api (Some s) w) = (JPrediction pr, 200)
    /\ next_idx pr = Z.min (idx + advance_samples) (Py.len df - 1)
    /\ idx <= next_idx pr <= Py.len df - 1
    /\ (Py.len df <= idx + advance_samples -> next_idx pr = Py.len df - 1).
Proof.
  intros Hws Hs Hidx advance_samples.
  rewrite (demo_predict_api_parsed w p m df s idx) by (try assumption; lia).
  destruct (predict_at_success p m df idx w sampling_rate_positive Hws Hidx)
    as [r_idx [r_next [_ [_ E]]]].
  rewrite E. eexists. split; [reflexivity|]. cbn [next_idx].
  assert (Hn : next_idx_val p df idx = Z.min (idx + advance_samples) (Py.len df - 1)).
  { unfold next_idx_val. now rewrite samples_to_advance_floor. }
  split; [exact Hn|].
  split; [apply next_idx_val_bounds; lia|].
  intros Hsat. rewrite Hn. lia.
Qed.

(** C3, amended.  For every index of the series ([0 <= idx < length()]) with
    [idx < window_samples - 1], the Predict operation answers with the
    insufficient-window error, status 400; the window it looked at is the
    [idx + 1] samples available, nothing is added to it, and the model is
    not run. *)
Theorem insufficient_window_reported (s : string) (idx : Z) :
  Py.int_of_str s = Some idx ->
  0 <= idx < Py.len df ->
  idx < model_window_samples p - 1 ->
  let window_samples := model_window_samples p in
  let window := input_sequence_df df window_samples idx in
  demo_predict_api (Some s) w
  = (jsonify_error (InsufficientWindow (idx + 1) window_samples idx) 400, w)
  /\ window = firstn (Z.to_nat (idx + 1)) df
  /\ Py.len window = idx + 1
  /\ model_calls (snd (demo_predict_api (Some s) w)) = model_calls w.
Proof.
  intros Hs Hidx Hshort window_samples window.
  assert (Hlen : Py.len window = idx + 1).
  { unfold window. rewrite len_input_sequence_df; unfold window_samples; lia. }
  assert (E : demo_predict_api (Some s) w
              = (jsonify_error (InsufficientWindow (idx + 1) window_samples idx) 400, w)).
  { rewrite (demo_predict_api_parsed w p m df s idx) by (try assumption; lia).
    unfold predict_at. do 2 bounds_test.
    rewrite (sampling_rate_ok p sampling_rate_positive). cbv zeta.
    fold window_samples. fold window. rewrite Hlen.
    unfold window_samples in *. do 2 bounds_test. reflexivity. }
  split; [exact E|]. split; [|split; [exact Hlen|now rewrite E]].
  unfold window, input_sequence_df, Frame.iloc_slice.
  destruct (slice_inside df (Z.max 0 (idx - window_samples + 1)) (idx + 1)) as [Hsl _];
    try (unfold window_samples; lia).
  rewrite Hsl. rewrite Z.max_l by (unfold window_samples; lia).
  rewrite Z.sub_0_r. reflexivity.
Qed.

End OperableService.

Lemma predict_window_exact_witness :
  let window := input_sequence_df series5 3 3 in
  window = Py.slice series5 (Z.max 0 (3 - 3 + 1)) (3 + 1)
  /\ window = firstn 3 (skipn 1 series5)
  /\ Py.len window = 3
  /\ (exists r, Py.item series5 3 = Some r /\ Py.item window (-1) = Some r)
  /\ (exists pr,
        fst (demo_predict_api (Some "3"%string) world5) = (JPrediction pr, 200)
        /\ predicted_speed pr = count_rows (Frame.values_speed_heart_rate window))
  /\ model_calls (snd (demo_predict_api (Some "3"%string) world5))
     = [Frame.values_speed_heart_rate window].
Proof.
  apply (predict_window_exact world5 predictor312 count_rows series5
           eq_refl eq_refl eq_refl eq_refl "3" 3); try reflexivity.
  vm_compute. split; congruence.
Defined.

(** C2, as stated, fails: index 0 is a valid index of a five-sample series,
    but with a window of three samples the request at 0 is answered with
    the insufficient-window error and carries no [next_idx]. *)
Lemma next_idx_not_for_every_valid_idx :
  fst (demo_predict_api (Some "0"%string) world5)
  = (JError (InsufficientWindow 1 3 0), 400)
  /\ ~ (forall (w : World) (p : Predictor) (m : ndarray -> Q) (df : DataFrame)
               (s : string) (idx : Z),
          predictor w = Some p -> model p = Some m -> demo_item_df w = Some df ->
          (0 < sampling_rate p)%Q -> 0 < model_window_samples p ->
          Py.int_of_str s = Some idx ->
          0 <= idx < Py.len df ->
          exists pr,
            fst (demo_predict_api (Some s) w) = (JPrediction pr, 200)
            /\ next_idx pr
               = Z.min (idx + Z.max 1 (Py.floor (prediction_duration p / sampling_rate p)))
                       (Py.len df - 1)).
Proof.
  split; [reflexivity|].
  intros H.
  destruct (H world5 predictor312 count_rows series5 "0"%string 0
              eq_refl eq_refl eq_refl eq_refl eq_refl eq_refl
              ltac:(vm_compute; split; congruence))
    as [pr [E _]].
  vm_compute in E. discriminate E.
Qed.

Lemma next_idx_saturates_witness :
  exists pr,
    fst (demo_predict_api (Some "3"%string) world5) = (JPrediction pr, 200)
    /\ next_idx pr = Z.min (3 + Z.max 1 (Py.floor (2 / 1))) (Py.len series5 - 1)
    /\ 3 <= next_idx pr <= Py.len series5 - 1
    /\ (Py.len series5 <= 3 + Z.max 1 (Py.floor (2 / 1))
        -> next_idx pr = Py.len series5 - 1).
Proof.
  apply (next_idx_saturates world5 predictor312 count_rows series5
           eq_refl eq_refl eq_refl eq_refl "3" 3); try reflexivity.
  vm_compute. split; congruence.
Defined.

(** C3, as stated, fails: [-1] is below [window_samples - 1 = 2], but the
    request is rejected by the bounds test on [idx], which comes first. *)
Lemma insufficient_window_not_for_every_idx :
  fst (demo_predict_api (Some "-1"%string) world5)
  = (JError (IndexOutOfRange (-1) 5), 400)
  /\ ~ (forall (w : World) (p : Predictor) (m : ndarray -> Q) (df : DataFrame)
               (s : string) (idx : Z),
          predictor w = Some p -> model p = Some m -> demo_item_df w = Some df ->
          (0 < sampling_rate p)%Q ->
          Py.int_of_str s = Some idx ->
          idx < model_window_samples p - 1 ->
          exists have,
            fst (demo_predict_api (Some s) w)
            = (JError (InsufficientWindow have (model_window_samples p) idx), 400)).
Proof.
  split; [reflexivity|].
  intros H.
  destruct (H world5 predictor312 count_rows series5 "-1"%string (-1)
              eq_refl eq_refl eq_refl eq_refl eq_refl eq_refl)
    as [have E].
  vm_compute in E. discriminate E.
Qed.

Lemma insufficient_window_reported_witness :
  let window := input_sequence_df series5 3 1 in
  demo_predict_api (Some "1"%string) world5
  = (jsonify_error (InsufficientWindow (1 + 1) 3 1) 400, world5)
  /\ window = firstn (Z.to_nat (1 + 1)) series5
  /\ Py.len window = 1 + 1
  /\ model_calls (snd (demo_predict_api (Some "1"%string) world5)) = model_calls world5.
Proof.
  apply (insufficient_window_reported world5 predictor312 count_rows series5
           eq_refl eq_refl eq_refl eq_refl "1" 1); try reflexivity.
  vm_compute. split; congruence.
Defined.

(** ** What a request does to the world *)

(** The prediction stage either answers without touching the world, or
    passes the shape test and runs the model once, on the array it was
    given. *)
Lemma predict_from_array_cases (p : Predictor) (m : ndarray -> Q)
    (df : DataFrame) (idx ws : Z) (arr : ndarray) :
  exists r,
    (forall w, predict_from_array p m df idx ws arr w = (r, w))
    \/ ((shape0 arr = ws /\ shape1 arr = 2)
        /\ forall w, predict_from_array p m df idx ws arr w = (r, record_call arr w)).
Proof.
  unfold predict_from_array.
  destruct (Z.eqb_spec (shape0 arr) ws) as [H0|H0]; cbn [negb orb];
    [|eexists; left; reflexivity].
  destruct (Z.eqb_spec (shape1 arr) 2) as [H1|H1]; cbn [negb];
    [|eexists; left; reflexivity].
  destruct (Frame.iloc df idx) as [r_idx|]; [|eexists; left; reflexivity].
  unfold bind, predict, ret.
  destruct (lookup_next_idx_origin_timestamp df (next_idx_val p df idx));
    eexists; right; (split; [split; assumption | reflexivity]).
Qed.

Lemma predict_at_cases (p : Predictor) (m : ndarray -> Q) (df : DataFrame) (idx : Z) :
  exists r,
    (forall w, predict_at p m df idx w = (r, w))
    \/ (exists arr, window_shaped (model_window_samples p) arr
          /\ forall w, predict_at p m df idx w = (r, record_call arr w)).
Proof.
  unfold predict_at.
  destruct (negb ((0 <=? idx) && (idx <? Py.len df))); [eexists; left; reflexivity|].
  destruct (Qle_bool (sampling_rate p) 0); [eexists; left; reflexivity|].
  cbv zeta.
  destruct (model_window_samples p <=? 0); [eexists; left; reflexivity|].
  destruct (Py.len (input_sequence_df df (model_window_samples p) idx)
            <? model_window_samples p); [eexists; left; reflexivity|].
  set (arr := Frame.values_speed_heart_rate _).
  destruct (predict_from_array_cases p m df idx (model_window_samples p) arr)
    as [r [H|[[H0 H1] H]]]; exists r; [now left|right].
  exists arr. split; [|exact H].
  destruct (shape_values (input_sequence_df df (model_window_samples p) idx))
    as [S0 [_ [S2 S3]]].
  fold arr in S0, S2, S3.
  unfold window_shaped. repeat split; try assumption. congruence.
Qed.

(** [demo_predict_api] as a function of the two globals it reads. *)
Lemma demo_predict_api_unfold (idx_str : option string)
    (po : option Predictor) (dfo : option DataFrame) :
  forall w, predictor w = po -> demo_item_df w = dfo ->
    demo_predict_api idx_str w
    = match po, dfo with
      | Some p, Some df =>
          match model p with
          | Some m =>
              if Frame.empty df then (jsonify_error NotInitialized 500, w)
              else
                match idx_str with
                | None => (jsonify_error (MissingParameter "idx") 400, w)
                | Some s =>
                    match Py.int_of_str s with
                    | None => (jsonify_error (InvalidParameter s) 400, w)
                    | Some idx => predict_at p m df idx w
                    end
                end
          | None => (jsonify_error NotInitialized 500, w)
          end
      | _, _ => (jsonify_error NotInitialized 500, w)
      end.
Proof.
  intros w Hp Hd. unfold demo_predict_api, bind, read_globals, ret.
  rewrite Hp, Hd.
  destruct po as [p|]; [|reflexivity]. destruct dfo as [df|]; [|reflexivity].
  destruct (model p); [|reflexivity]. destruct (Frame.empty df); [reflexivity|].
  destruct idx_str as [s|]; [|reflexivity].
  destruct (Py.int_of_str s); reflexivity.
Qed.

(** The response of [demo_predict_api] is determined by the two globals; the
    globals are left as they were. *)
Lemma demo_predict_api_cases (idx_str : option string)
    (po : option Predictor) (dfo : option DataFrame) :
  exists r,
    (forall w, predictor w = po -> demo_item_df w = dfo ->
               demo_predict_api idx_str w = (r, w))
    \/ (exists p arr, po = Some p /\ window_shaped (model_window_samples p) arr
          /\ forall w, predictor w = po -> demo_item_df w = dfo ->
                       demo_predict_api idx_str w = (r, record_call arr w)).
Proof.
  pose proof (demo_predict_api_unfold idx_str po dfo) as E.
  destruct po as [p|]; [|eexists; left; intros w Hp Hd; rewrite (E w Hp Hd); reflexivity].
  destruct dfo as [df|]; [|eexists; left; intros w Hp Hd; rewrite (E w Hp Hd); reflexivity].
  destruct (model p) as [m|];
    [|eexists; left; intros w Hp Hd; rewrite (E w Hp Hd); reflexivity].
  destruct (Frame.empty df);
    [eexists; left; intros w Hp Hd; rewrite (E w Hp Hd); reflexivity|].
  destruct idx_str as [s|];
    [|eexists; left; intros w Hp Hd; rewrite (E w Hp Hd); reflexivity].
  destruct (Py.int_of_str s) as [idx|];
    [|eexists; left; intros w Hp Hd; rewrite (E w Hp Hd); reflexivity].
  destruct (predict_at_cases p m df idx) as [r [H|[arr [Hs H]]]]; exists r.
  - left. intros w Hp Hd. rewrite (E w Hp Hd). apply H.
  - right. exists p, arr. split; [reflexivity|]. split; [exact Hs|].
    intros w Hp Hd. rewrite (E w Hp Hd). apply H.
Qed.

(** [demo_data_api] never changes the world, and reads only the series. *)
Lemma demo_data_api_cases (float_of_str : string -> option Q)
    (t_str : option string) (dfo : option DataFrame) :
  exists r, forall w, demo_item_df w = dfo ->
                      demo_data_api float_of_str t_str w = (r, w).
Proof.
  unfold demo_data_api, bind, read_globals, ret. cbn [snd].
  destruct dfo as [df|]; [|eexists; intros w Hd; rewrite Hd; reflexivity].
  destruct (Frame.empty df) eqn:Ee;
    [eexists; intros w Hd; rewrite Hd, Ee; reflexivity|].
  destruct t_str as [s|]; [|eexists; intros w Hd; rewrite Hd, Ee; reflexivity].
  destruct (float_of_str s) as [t|];
    [|eexists; intros w Hd; rewrite Hd, Ee; reflexivity].
  destruct (Frame.idxmin (Frame.abs_distance df t)) as [i|] eqn:Ei;
    [|eexists; intros w Hd; rewrite Hd, Ee, Ei; reflexivity].
  destruct (Frame.loc df i) eqn:El;
    eexists; intros w Hd; rewrite Hd, Ee, Ei, El; reflexivity.
Qed.

Lemma handle_globals (float_of_str : string -> option Q) (r : Request) (w : World) :
  predictor (snd (handle float_of_str r w)) = predictor w
  /\ demo_item_df (snd (handle float_of_str r w)) = demo_item_df w.
Proof.
  destruct r as [idx_str|t_str]; cbn [handle].
  - destruct (demo_predict_api_cases idx_str (predictor w) (demo_item_df w))
      as [r [H|[p [arr [_ [_ H]]]]]]; rewrite (H w eq_refl eq_refl); split; reflexivity.
  - destruct (demo_data_api_cases float_of_str t_str (demo_item_df w)) as [r H].
    rewrite (H w eq_refl). split; reflexivity.
Qed.

Lemma serve_globals (float_of_str : string -> option Q) (rs : list Request) :
  forall w, predictor (serve float_of_str rs w) = predictor w
            /\ demo_item_df (serve float_of_str rs w) = demo_item_df w.
Proof.
  induction rs as [|r rs IH]; intros w; cbn [serve].
  - split; reflexivity.
  - destruct (IH (snd (handle float_of_str r w))) as [Hp Hd].
    destruct (handle_globals float_of_str r w) as [Hp' Hd'].
    split; congruence.
Qed.

Lemma demo_predict_api_response (idx_str : option string) (w w' : World) :
  predictor w' = predictor w -> demo_item_df w' = demo_item_df w ->
  fst (demo_predict_api idx_str w') = fst (demo_predict_api idx_str w).
Proof.
  intros Hp Hd.
  destruct (demo_predict_api_cases idx_str (predictor w) (demo_item_df w))
    as [r [H|[p [arr [_ [_ H]]]]]];
    rewrite (H w eq_refl eq_refl), (H w' Hp Hd); reflexivity.
Qed.

(** ** Parameter validation *)

(** C6.  In an initialised service, a Predict request without [idx] is
    answered with the missing-parameter error, one whose [idx] does not
    parse as an integer with the invalid-parameter error, and one whose
    parsed [idx] is outside [[0, length())] with the index-out-of-range
    error; all three carry status 400 and leave the world as it was. *)
Theorem predict_parameter_errors (w : World) (df : DataFrame) :
  initialized w = true -> demo_item_df w = Some df ->
  demo_predict_api None w = (jsonify_error (MissingParameter "idx") 400, w)
  /\ (forall s, Py.int_of_str s = None ->
        demo_predict_api (Some s) w = (jsonify_error (InvalidParameter s) 400, w))
  /\ (forall s idx, Py.int_of_str s = Some idx ->
        ~ (0 <= idx < Py.len df) ->
        demo_predict_api (Some s) w
        = (jsonify_error (IndexOutOfRange idx (Py.len df)) 400, w)).
Proof.
  intros Hi Hdf.
  destruct (initialized_inv w Hi) as [p [m [df' [Hp [Hm [Hdf' Hlen]]]]]].
  assert (df' = df) by congruence. subst df'.
  apply empty_false_len in Hlen.
  split; [|split].
  - rewrite (demo_predict_api_unfold None _ _ w Hp Hdf), Hm, Hlen. reflexivity.
  - intros s Hs.
    rewrite (demo_predict_api_unfold (Some s) _ _ w Hp Hdf), Hm, Hlen, Hs. reflexivity.
  - intros s idx Hs Hout.
    rewrite (demo_predict_api_unfold (Some s) _ _ w Hp Hdf), Hm, Hlen, Hs.
    unfold predict_at.
    destruct (Z.leb_spec 0 idx); destruct (Z.ltb_spec idx (Py.len df));
      cbn [andb negb]; try reflexivity.
    exfalso. apply Hout. lia.
Qed.

Lemma predict_parameter_errors_witness :
  demo_predict_api None world5 = (jsonify_error (MissingParameter "idx") 400, world5)
  /\ demo_predict_api (Some "abc"%string) world5
     = (jsonify_error (InvalidParameter "abc") 400, world5)
  /\ demo_predict_api (Some "5"%string) world5
     = (jsonify_error (IndexOutOfRange 5 5) 400, world5).
Proof.
  destruct (predict_parameter_errors world5 series5 eq_refl eq_refl) as [H1 [H2 H3]].
  split; [exact H1|]. split.
  - apply H2. reflexivity.
  - apply (H3 "5"%string 5); [reflexivity|]. vm_compute. intros [_ H]. discriminate H.
Defined.

(** ** The shape contract *)

(** C7.  A candidate input array whose shape is not exactly
    [(window_samples, 2)] is answered with the invalid-input-shape error and
    the model is not run on it (the world, and with it the record of model
    calls, is unchanged); and whatever the request, every array a Predict
    call hands to the model has shape exactly [(window_samples, 2)]. *)
Theorem model_input_shape_guarded :
  (forall (p : Predictor) (m : ndarray -> Q) (df : DataFrame) (idx ws : Z)
          (arr : ndarray) (w : World),
      (shape0 arr, shape1 arr) <> (ws, 2) ->
      predict_from_array p m df idx ws arr w
      = (jsonify_error (InvalidInputShape (shape0 arr, shape1 arr) ws) 500, w))
  /\ (forall (idx_str : option string) (w : World),
        exists calls,
          model_calls (snd (demo_predict_api idx_str w)) = model_calls w ++ calls
          /\ Forall (fun a => exists p, predictor w = Some p
                                        /\ window_shaped (model_window_samples p) a)
                    calls).
Proof.
  split.
  - intros p m df idx ws arr w Hshape. unfold predict_from_array.
    destruct (Z.eqb_spec (shape0 arr) ws) as [H0|H0]; cbn [negb orb]; [|reflexivity].
    destruct (Z.eqb_spec (shape1 arr) 2) as [H1|H1]; cbn [negb]; [|reflexivity].
    exfalso. apply Hshape. congruence.
  - intros idx_str w.
    destruct (demo_predict_api_cases idx_str (predictor w) (demo_item_df w))
      as [r [H|[p [arr [Hp [Hs H]]]]]]; rewrite (H w eq_refl eq_refl); cbn [snd].
    + exists []. split; [now rewrite app_nil_r | constructor].
    + exists [arr]. split; [reflexivity|].
      constructor; [|constructor]. exists p. split; assumption.
Qed.

Lemma model_input_shape_guarded_witness :
  predict_from_array predictor312 count_rows series5 3 3
    (Frame.values_speed_heart_rate (firstn 2 series5)) world5
  = (jsonify_error (InvalidInputShape (2, 2) 3) 500, world5)
  /\ exists calls,
       model_calls (snd (demo_predict_api (Some "3"%string) world5))
       = model_calls world5 ++ calls
       /\ Forall (fun a => exists p, predictor world5 = Some p
                                     /\ window_shaped (model_window_samples p) a)
                 calls.
Proof.
  destruct model_input_shape_guarded as [H1 H2].
  split.
  - apply (H1 predictor312 count_rows series5 3 3
              (Frame.values_speed_heart_rate (firstn 2 series5)) world5).
    vm_compute. intros H. discriminate H.
  - apply (H2 (Some "3"%string) world5).
Defined.

(** ** The initialisation guard *)

(** Start-up leaves either nothing loaded or a predictor together with a
    non-empty series; the guards of the two endpoints then differ exactly
    when the predictor holds no model. *)
Lemma initialize_app_states (loaded_predictor : option Predictor)
    (session : option Session) :
  let w := initialize_app loaded_predictor session in
  (predictor w = None /\ demo_item_df w = None)
  \/ (exists p df, predictor w = Some p /\ demo_item_df w = Some df
                   /\ 0 < Py.len df /\ data_loaded w = true
                   /\ initialized w = has_model p).
Proof.
  unfold initialize_app. cbv zeta.
  destruct loaded_predictor as [p|]; [|left; split; reflexivity].
  destruct session as [s|]; [|left; split; reflexivity].
  destruct (load_demo_data s) as [e|df] eqn:El; [left; split; reflexivity|].
  right. exists p, df.
  assert (Hne : Frame.empty df = false).
  { unfold load_demo_data in El.
    destruct (Loader.make_frame _ _ _); [|discriminate].
    destruct (Loader.sort_values _); [discriminate|]. cbv zeta in El.
    destruct (Loader.keep_valid _); [discriminate|].
    injection El as <-. reflexivity. }
  split; [reflexivity|]. split; [reflexivity|].
  split; [now apply empty_false_len|].
  unfold data_loaded, initialized, has_model. cbn [predictor demo_item_df].
  rewrite Hne. split; [reflexivity|]. destruct (model p); reflexivity.
Qed.

Example initialize_app_without_model :
  load_demo_data session5 = Returned series5
  /\ initialize_app (Some predictor312) (Some session5) = world5
  /\ initialize_app
       (Some {| model := None; sampling_rate := 1;
                window_duration := 3; prediction_duration := 2 |})
       (Some session5)
     = world_without_model.
Proof. repeat split; reflexivity. Qed.

(** C8, as stated, fails for the data endpoint: its guard looks at the
    series only, so with the series loaded and no model it serves the row. *)
Lemma data_endpoint_ignores_predictor :
  initialized world_without_model = false
  /\ fst (demo_data_api float_of_literal (Some "3"%string) world_without_model)
     = (JRow (sample_at 3), 200)
  /\ ~ (forall (float_of_str : string -> option Q) (w : World)
               (t_str : option string),
          initialized w = false ->
          exists e, fst (demo_data_api float_of_str t_str w) = (JError e, 500)).
Proof.
  split; [reflexivity|]. split; [reflexivity|].
  intros H.
  destruct (H float_of_literal world_without_model (Some "3"%string) eq_refl)
    as [e E].
  vm_compute in E. discriminate E.
Qed.

(** C8, amended.  Each endpoint checks its own initialisation first and
    answers with a server error before it looks at any parameter: Predict
    when the predictor, its model or the series is missing or the series is
    empty; Data-lookup when the series is missing or empty (it does not
    consult the predictor).  The answer does not depend on the request
    parameters or on the parser. *)
Theorem not_initialized_checked_first (float_of_str : string -> option Q)
    (w : World) (idx_str t_str : option string) :
  (initialized w = false ->
   demo_predict_api idx_str w = (jsonify_error NotInitialized 500, w))
  /\ (data_loaded w = false ->
      demo_data_api float_of_str t_str w = (jsonify_error DataNotLoaded 500, w)).
Proof.
  split.
  - unfold initialized. intros H.
    rewrite (demo_predict_api_unfold idx_str _ _ w eq_refl eq_refl).
    destruct (predictor w) as [p|]; [|reflexivity].
    destruct (demo_item_df w) as [df|]; [|reflexivity].
    destruct (model p); [|reflexivity].
    apply negb_false_iff in H. rewrite H. reflexivity.
  - unfold data_loaded, demo_data_api, bind, read_globals, ret. cbn [snd]. intros H.
    destruct (demo_item_df w) as [df|]; [|reflexivity].
    apply negb_false_iff in H. rewrite H. reflexivity.
Qed.

Lemma not_initialized_checked_first_witness :
  demo_predict_api (Some "3"%string) world_without_model
  = (jsonify_error NotInitialized 500, world_without_model)
  /\ demo_data_api float_of_literal (Some "3"%string) (mkWorld None (Some []) [])
     = (jsonify_error DataNotLoaded 500, mkWorld None (Some []) []).
Proof.
  split.
  - apply (not_initialized_checked_first float_of_literal world_without_model
             (Some "3"%string) None). reflexivity.
  - apply (not_initialized_checked_first float_of_literal (mkWorld None (Some []) [])
             None (Some "3"%string)). reflexivity.
Defined.

(** ** Repeated requests *)

(** C9.  A Predict call with a given [idx] returns the same response
    (predicted speed, [next_idx] and both origin timestamps) however many
    requests, to either endpoint, were served before it: requests leave the
    predictor and the series as they were, and the response is a function
    of these alone.  In particular two calls in a row give identical
    outputs. *)
Theorem predict_repeatable (float_of_str : string -> option Q)
    (rs : list Request) (idx_str : option string) (w : World) :
  fst (demo_predict_api idx_str (serve float_of_str rs w))
  = fst (demo_predict_api idx_str w)
  /\ fst (demo_predict_api idx_str (snd (demo_predict_api idx_str w)))
     = fst (demo_predict_api idx_str w)
  /\ predictor (serve float_of_str rs w) = predictor w
  /\ demo_item_df (serve float_of_str rs w) = demo_item_df w.
Proof.
  destruct (serve_globals float_of_str rs w) as [Hp Hd].
  split; [now apply demo_predict_api_response|].
  split; [|split; assumption].
  destruct (handle_globals float_of_str (GetDemoPredict idx_str) w) as [Hp' Hd'].
  now apply demo_predict_api_response.
Qed.

(** ** The sentinel *)

Lemma predict_at_prediction (p : Predictor) (m : ndarray -> Q) (df : DataFrame)
    (idx : Z) (w : World) (pr : Prediction) (status : Z) :
  fst (predict_at p m df idx w) = (JPrediction pr, status) ->
  0 <= idx < Py.len df
  /\ next_idx pr = next_idx_val p df idx
  /\ exists r_next,
       Frame.iloc df (next_idx pr) = Some r_next
       /\ next_idx_origin_timestamp pr = inject_Z (origin_timestamp r_next).
Proof.
  unfold predict_at.
  destruct (Z.leb_spec 0 idx); destruct (Z.ltb_spec idx (Py.len df));
    cbn [andb negb]; try (cbn; discriminate).
  destruct (Qle_bool (sampling_rate p) 0); [cbn; discriminate|].
  cbv zeta.
  destruct (model_window_samples p <=? 0); [cbn; discriminate|].
  destruct (Py.len (input_sequence_df df (model_window_samples p) idx)
            <? model_window_samples p); [cbn; discriminate|].
  unfold predict_from_array.
  destruct (negb _ || negb _); [cbn; discriminate|].
  destruct (Frame.iloc df idx) as [r_idx|]; [|cbn; discriminate].
  destruct (next_idx_lookup p df idx) as [_ [r_next [Hn Hl]]]; [lia|].
  unfold bind, predict, ret. rewrite Hl. cbn [fst].
  intros E. injection E as E _. subst pr. cbn [next_idx next_idx_origin_timestamp].
  split; [lia|]. split; [reflexivity|]. now exists r_next.
Qed.

(** C10.  For every request index that passes the bounds test
    [0 <= idx < length()], the computed [next_idx] passes the second bounds
    test, so the sentinel branch is never taken: the value read is the
    origin timestamp of the sample at [next_idx], and every successful
    response carries that timestamp. *)
Theorem next_idx_always_in_bounds (p : Predictor) (df : DataFrame) (idx : Z) :
  0 <= idx < Py.len df ->
  next_idx_in_bounds df (next_idx_val p df idx) = true
  /\ (exists r,
        Frame.iloc df (next_idx_val p df idx) = Some r
        /\ lookup_next_idx_origin_timestamp df (next_idx_val p df idx)
           = Some (inject_Z (origin_timestamp r)))
  /\ (forall (w : World) (m : ndarray -> Q) (s : string) (pr : Prediction) (status : Z),
        predictor w = Some p -> model p = Some m -> demo_item_df w = Some df ->
        Py.int_of_str s = Some idx ->
        fst (demo_predict_api (Some s) w) = (JPrediction pr, status) ->
        next_idx pr = next_idx_val p df idx
        /\ exists r, Frame.iloc df (next_idx pr) = Some r
                     /\ next_idx_origin_timestamp pr = inject_Z (origin_timestamp r)).
Proof.
  intros Hidx.
  destruct (next_idx_lookup p df idx Hidx) as [Hin Hr].
  split; [exact Hin|]. split; [exact Hr|].
  intros w m s pr status Hp Hm Hdf Hs E.
  rewrite (demo_predict_api_parsed w p m df s idx) in E by (try assumption; lia).
  apply predict_at_prediction in E. tauto.
Qed.

Lemma next_idx_always_in_bounds_witness :
  next_idx_in_bounds series5 (next_idx_val predictor312 series5 4) = true
  /\ exists r,
       Frame.iloc series5 (next_idx_val predictor312 series5 4) = Some r
       /\ lookup_next_idx_origin_timestamp series5 (next_idx_val predictor312 series5 4)
          = Some (inject_Z (origin_timestamp r)).
Proof.
  destruct (next_idx_always_in_bounds predictor312 series5 4) as [H1 [H2 _]].
  - vm_compute. split; congruence.
  - split; [exact H1 | exact H2].
Defined.

(** ** The nearest sample *)

Lemma Qltb_lt (x y : Q) : Py.Qltb x y = true <-> (x < y)%Q.
Proof.
  unfold Py.Qltb. rewrite negb_true_iff. split.
  - intros H. apply Qnot_le_lt. intros Hle.
    apply Qle_bool_iff in Hle. congruence.
  - intros H. destruct (Qle_bool y x) eqn:E; [|reflexivity].
    apply Qle_bool_iff in E. exfalso. exact (Qlt_not_le _ _ H E).
Qed.






(** ** The loader *)

Lemma make_frame_timestamps (ts : list Z) :
  forall hr sp rows0,
    Loader.make_frame ts hr sp = Some rows0 -> map raw_timestamp rows0 = ts.
Proof.
  induction ts as [|t ts IH]; intros [|h hr] [|s sp] rows0 H; cbn in H;
    try discriminate H.
  - injection H as <-. reflexivity.
  - destruct (Loader.make_frame ts hr sp) as [rest|] eqn:E; [|discriminate H].
    cbn in H. injection H as <-. cbn. f_equal. eapply IH; eassumption.
Qed.

Lemma insert_by_timestamp_In (x y : RawRow) (l : list RawRow) :
  In y (Loader.insert_by_timestamp x l) <-> y = x \/ In y l.
Proof.
  induction l as [|z l IH]; cbn.
  - intuition congruence.
  - destruct (raw_timestamp x <=? raw_timestamp z); cbn; rewrite ?IH;
      intuition congruence.
Qed.

Lemma sort_values_In (y : RawRow) (l : list RawRow) :
  In y (Loader.sort_values l) <-> In y l.
Proof.
  unfold Loader.sort_values. induction l as [|x l IH]; cbn; [tauto|].
  rewrite insert_by_timestamp_In, IH. intuition congruence.
Qed.

Lemma insert_by_timestamp_head_least (x : RawRow) (l : list RawRow) :
  head_least l -> head_least (Loader.insert_by_timestamp x l).
Proof.
  destruct l as [|z l]; cbn.
  - intros _ y [].
  - intros Hz. destruct (Z.leb_spec (raw_timestamp x) (raw_timestamp z)) as [Hle|Hlt]; cbn.
    + intros y [<-|Hy]; [exact Hle|]. specialize (Hz y Hy). lia.
    + intros y Hy. apply insert_by_timestamp_In in Hy.
      destruct Hy as [->|Hy]; [lia | now apply Hz].
Qed.

Lemma sort_values_head_least (l : list RawRow) : head_least (Loader.sort_values l).
Proof.
  unfold Loader.sort_values. induction l as [|x l IH]; cbn; [exact I|].
  now apply insert_by_timestamp_head_least.
Qed.

Lemma cleaned_In (t0 : Z) (sorted : list RawRow) (r : Sample) :
  In r (Loader.keep_valid (Loader.dropna (Loader.assign_origin t0 sorted))) ->
  exists raw, In raw sorted /\ timestamp r = raw_timestamp raw
              /\ origin_timestamp r = raw_timestamp raw - t0.
Proof.
  unfold Loader.keep_valid, Loader.dropna, Loader.assign_origin.
  intros H. apply filter_In in H. destruct H as [H _].
  apply filter_In in H. destruct H as [H _].
  apply in_map_iff in H. destruct H as [raw [<- Hin]].
  exists raw. repeat split. exact Hin.
Qed.

(** What the loader does guarantee: every origin timestamp is the sample's
    timestamp minus the least timestamp of the session as read, before
    cleaning, and is not negative. *)
Lemma load_demo_data_origin (s : Session) (df : DataFrame) :
  load_demo_data s = Returned df ->
  exists t0,
    In t0 (session_timestamp s)
    /\ (forall t, In t (session_timestamp s) -> t0 <= t)
    /\ forall r, In r df ->
         origin_timestamp r = timestamp r - t0 /\ 0 <= origin_timestamp r.
Proof.
  unfold load_demo_data.
  destruct (Loader.make_frame _ _ _) as [rows0|] eqn:Ef; [|discriminate].
  apply make_frame_timestamps in Ef.
  destruct (Loader.sort_values rows0) as [|first rest] eqn:Es; [discriminate|].
  pose proof (sort_values_head_least rows0) as Hleast. rewrite Es in Hleast.
  assert (Hmin : forall raw, In raw (first :: rest) ->
                             raw_timestamp first <= raw_timestamp raw).
  { intros raw [<-|Hin]; [lia | now apply Hleast]. }
  cbv zeta.
  destruct (Loader.keep_valid _) as [|r0 df0] eqn:Ek; [discriminate|].
  intros H. injection H as <-. exists (raw_timestamp first). split; [|split].
  - rewrite <- Ef. apply in_map. apply sort_values_In. rewrite Es. now left.
  - intros t Ht. rewrite <- Ef in Ht. apply in_map_iff in Ht.
    destruct Ht as [raw [<- Hin]]. apply Hmin. rewrite <- Es.
    now apply sort_values_In.
  - intros r Hr. rewrite <- Ek in Hr. apply cleaned_In in Hr.
    destruct Hr as [raw [Hin [Ht Ho]]]. specialize (Hmin raw Hin). lia.
Qed.

(** When the row with the least timestamp survives the cleaning, the claim
    of the specification holds: the first sample has origin 0 and every
    origin is relative to the first sample. *)
Lemma load_demo_data_origin_first_kept (s : Session) (df : DataFrame)
    (rows0 : list RawRow) (first : RawRow) (rest : list RawRow) :
  Loader.make_frame (session_timestamp s) (session_heart_rate s) (session_speed s)
  = Some rows0 ->
  Loader.sort_values rows0 = first :: rest ->
  Loader.notna (raw_heart_rate first) && Loader.notna (raw_speed first)
  && (Loader.ge0 (raw_speed first) && Loader.gt0 (raw_heart_rate first)) = true ->
  exists r0 df0,
    load_demo_data s = Returned (r0 :: df0)
    /\ origin_timestamp r0 = 0
    /\ forall r, In r (r0 :: df0) ->
         origin_timestamp r = timestamp r - timestamp r0 /\ 0 <= origin_timestamp r.
Proof.
  intros Ef Es Hvalid. apply andb_true_iff in Hvalid. destruct Hvalid as [Hna Hv].
  assert (E : exists df0, load_demo_data s
                = Returned (mkSample (raw_timestamp first) (raw_heart_rate first)
                              (raw_speed first) (raw_timestamp first - raw_timestamp first)
                            :: df0)).
  { unfold load_demo_data. rewrite Ef, Es. cbv zeta.
    unfold Loader.keep_valid, Loader.dropna, Loader.assign_origin.
    cbn [map filter heart_rate speed]. rewrite Hna. cbn [filter heart_rate speed].
    rewrite Hv. eexists. reflexivity. }
  destruct E as [df0 E]. eexists. exists df0. split; [exact E|].
  cbn [origin_timestamp timestamp]. split; [lia|].
  destruct (load_demo_data_origin s _ E) as [t0 [_ [_ Hall]]].
  assert (Ht0 : t0 = raw_timestamp first).
  { destruct (Hall _ (or_introl eq_refl)) as [H0 _]. cbn in H0. lia. }
  subst t0. exact Hall.
Qed.

(** C5, on the code.  The origin column is computed before the cleaning
    drops rows, so when the earliest record is dropped the first sample of
    the loaded series does not have origin timestamp 0, and origins are not
    relative to the first sample: here the series is the single sample with
    timestamp 20 and origin timestamp 10. *)
Theorem load_demo_data_origin_before_cleaning :
  load_demo_data session_late_heart_rate
  = Returned [mkSample 20 (Some (100 # 1)) (Some 1%Q) 10]
  /\ exists first rest,
       load_demo_data session_late_heart_rate = Returned (first :: rest)
       /\ origin_timestamp first <> 0
       /\ origin_timestamp first <> timestamp first - timestamp first.
Proof.
  split; [reflexivity|].
  eexists. eexists. split; [reflexivity|]. cbn. split; discriminate.
Qed.

(** ** Worked examples *)

Example int_of_str_examples :
  Py.int_of_str "42" = Some 42
  /\ Py.int_of_str " -7 " = Some (-7)
  /\ Py.int_of_str "+1_000" = Some 1000
  /\ Py.int_of_str "007" = Some 7
  /\ Py.int_of_str "" = None
  /\ Py.int_of_str "4_" = None
  /\ Py.int_of_str "1__0" = None
  /\ Py.int_of_str "- 3" = None
  /\ Py.int_of_str "3.0" = None
  /\ Py.int_of_str "abc" = None.
Proof. repeat split; reflexivity. Qed.

Example slice_examples :
  Py.slice [1; 2; 3; 4; 5] 1 4 = [2; 3; 4]
  /\ Py.slice [1; 2; 3; 4; 5] 3 9 = [4; 5]
  /\ Py.slice [1; 2; 3; 4; 5] (-2) 5 = [4; 5]
  /\ Py.slice [1; 2; 3; 4; 5] 4 2 = []
  /\ Py.item [1; 2; 3] (-1) = Some 3
  /\ Py.item [1; 2; 3] 3 = None.
Proof. repeat split; reflexivity. Qed.

Example int_of_float_examples :
  Py.int_of_float (7 # 2) = 3 /\ Py.int_of_float (-7 # 2) = -3
  /\ Py.floor (7 # 2) = 3 /\ Py.floor (-7 # 2) = -4.
Proof. repeat split; reflexivity. Qed.

(** Ten samples, a window of three, a stride of two: the request at index 5
    runs the model on samples 3, 4, 5 and returns [next_idx = 7]. *)
Example predict_end_to_end :
  let series10 := map sample_at [0; 1; 2; 3; 4; 5; 6; 7; 8; 9] in
  demo_predict_api (Some "5"%string)
    {| predictor := Some predictor312; demo_item_df := Some series10;
       model_calls := [] |}
  = ((JPrediction {| predicted_speed := 3; next_idx := 7;
                     current_input_end_origin_timestamp := 5;
                     next_idx_origin_timestamp := 7 |}, 200),
     {| predictor := Some predictor312; demo_item_df := Some series10;
        model_calls :=
          [Frame.values_speed_heart_rate (map sample_at [3; 4; 5])] |}).
Proof. reflexivity. Qed.

(** At the end of the series [next_idx] stays on the last index. *)
Example predict_at_series_end :
  exists pr,
    fst (demo_predict_api (Some "4"%string) world5) = (JPrediction pr, 200)
    /\ next_idx pr = 4.
Proof. eexists. split; reflexivity. Qed.

(** * Further properties of the handlers *)

(** ** Every outcome of [demo_predict_api] *)

Lemma sampling_rate_bad (p : Predictor) :
  Qle_bool (sampling_rate p) 0 = false -> (0 < sampling_rate p)%Q.
Proof.
  intros H. apply Qnot_le_lt. intros Hle. apply Qle_bool_iff in Hle. congruence.
Qed.

(** [predict_at] either sends one of four errors and leaves the world
    alone, or passes every test, runs the model on the window and sends the
    prediction. *)
Lemma predict_at_outcome (p : Predictor) (m : ndarray -> Q) (df : DataFrame)
    (idx : Z) (w : World) :
  (exists e, predict_error e = true
             /\ predict_at p m df idx w = (jsonify_error e (error_status e), w))
  \/ ((0 < sampling_rate p)%Q /\ 0 < model_window_samples p
      /\ model_window_samples p <= idx + 1 <= Py.len df
      /\ exists r_idx r_next,
           Frame.iloc df idx = Some r_idx
           /\ Frame.iloc df (next_idx_val p df idx) = Some r_next
           /\ predict_at p m df idx w
              = (success p m df idx r_idx r_next,
                 record_call (Frame.values_speed_heart_rate
                                (input_sequence_df df (model_window_samples p) idx)) w)).
Proof.
  unfold predict_at.
  destruct (negb ((0 <=? idx) && (idx <? Py.len df))) eqn:Eb.
  { left. exists (IndexOutOfRange idx (Py.len df)). split; reflexivity. }
  destruct (Qle_bool (sampling_rate p) 0) eqn:Es.
  { left. exists InvalidSamplingRate. split; reflexivity. }
  cbv zeta.
  destruct (model_window_samples p <=? 0) eqn:Ew.
  { left. exists InvalidWindowConfiguration. split; reflexivity. }
  destruct (Py.len (input_sequence_df df (model_window_samples p) idx)
            <? model_window_samples p) eqn:El.
  { left. eexists (InsufficientWindow _ _ _). split; reflexivity. }
  right.
  apply negb_false_iff, andb_true_iff in Eb. destruct Eb as [H0 H1].
  apply Z.leb_le in H0. apply Z.ltb_lt in H1.
  apply sampling_rate_bad in Es. apply Z.leb_gt in Ew. apply Z.ltb_ge in El.
  rewrite len_input_sequence_df in El by lia.
  assert (Hidx : model_window_samples p <= idx + 1 <= Py.len df) by lia.
  split; [exact Es|]. split; [exact Ew|]. split; [exact Hidx|].
  destruct (predict_at_success p m df idx w Es Ew Hidx) as [r_idx [r_next [Hi [Hn H]]]].
  exists r_idx, r_next. split; [exact Hi|]. split; [exact Hn|].
  unfold predict_at in H.
  assert (Eb : negb ((0 <=? idx) && (idx <? Py.len df)) = false).
  { apply negb_false_iff, andb_true_iff. split; [now apply Z.leb_le | now apply Z.ltb_lt]. }
  rewrite Eb, (sampling_rate_ok p Es) in H. cbv zeta in H.
  apply Z.leb_gt in Ew. rewrite Ew in H.
  assert (El' : (Py.len (input_sequence_df df (model_window_samples p) idx)
                 <? model_window_samples p) = false).
  { apply Z.ltb_ge. rewrite len_input_sequence_df; lia. }
  rewrite El' in H. exact H.
Qed.

(** The same for the whole handler. *)
Lemma demo_predict_api_outcome (idx_str : option string) (w : World) :
  (exists e, predict_error e = true
             /\ demo_predict_api idx_str w = (jsonify_error e (error_status e), w))
  \/ (exists p m df s idx r_idx r_next,
        predictor w = Some p /\ model p = Some m /\ demo_item_df w = Some df
        /\ idx_str = Some s /\ Py.int_of_str s = Some idx
        /\ (0 < sampling_rate p)%Q /\ 0 < model_window_samples p
        /\ model_window_samples p <= idx + 1 <= Py.len df
        /\ Frame.iloc df idx = Some r_idx
        /\ Frame.iloc df (next_idx_val p df idx) = Some r_next
        /\ demo_predict_api idx_str w
           = (success p m df idx r_idx r_next,
              record_call (Frame.values_speed_heart_rate
                             (input_sequence_df df (model_window_samples p) idx)) w)).
Proof.
  rewrite (demo_predict_api_unfold idx_str _ _ w eq_refl eq_refl).
  destruct (predictor w) as [p|] eqn:Ep;
    [|left; exists NotInitialized; split; reflexivity].
  destruct (demo_item_df w) as [df|] eqn:Ed;
    [|left; exists NotInitialized; split; reflexivity].
  destruct (model p) as [m|] eqn:Em;
    [|left; exists NotInitialized; split; reflexivity].
  destruct (Frame.empty df); [left; exists NotInitialized; split; reflexivity|].
  destruct idx_str as [s|];
    [|left; exists (MissingParameter "idx"); split; reflexivity].
  destruct (Py.int_of_str s) as [idx|] eqn:Es;
    [|left; exists (InvalidParameter s); split; reflexivity].
  destruct (predict_at_outcome p m df idx w)
    as [[e [He H]]|[Hsr [Hws [Hidx [r_idx [r_next [Hi [Hn H]]]]]]]].
  - left. exists e. split; assumption.
  - right. exists p, m, df, s, idx, r_idx, r_next. repeat (split; [assumption || reflexivity|]).
    exact H.
Qed.

(** X1.  A Predict request is answered with status 200 exactly when the
    service is initialised, [idx] parses as an integer, the sampling rate is
    positive, the window holds at least one sample, and
    [window_samples <= idx + 1 <= length()]. *)
Theorem predict_succeeds_iff (idx_str : option string) (w : World) :
  (exists body, fst (demo_predict_api idx_str w) = (body, 200))
  <-> (exists p m df s idx,
         predictor w = Some p /\ model p = Some m /\ demo_item_df w = Some df
         /\ idx_str = Some s /\ Py.int_of_str s = Some idx
         /\ (0 < sampling_rate p)%Q /\ 0 < model_window_samples p
         /\ model_window_samples p <= idx + 1 <= Py.len df).
Proof.
  destruct (demo_predict_api_outcome idx_str w)
    as [[e [He H]]|[p [m [df [s [idx [r_idx [r_next H]]]]]]]].
  - rewrite H. cbn [fst]. split.
    + intros [body E]. injection E as _ E. exfalso.
      destruct e; cbn in E; discriminate E.
    + intros [p [m [df [s [idx [Hp [Hm [Hd [Hi [Hs [Hsr [Hws Hidx]]]]]]]]]]]].
      subst idx_str. exfalso.
      rewrite (demo_predict_api_parsed w p m df s idx) in H by (try assumption; lia).
      destruct (predict_at_success p m df idx w Hsr Hws Hidx) as [r1 [r2 [_ [_ E]]]].
      rewrite E in H. discriminate H.
  - destruct H as [Hp [Hm [Hd [Hi [Hs [Hsr [Hws [Hidx [_ [_ E]]]]]]]]]].
    split.
    + intros _. exists p, m, df, s, idx. repeat (split; [assumption|]). exact Hidx.
    + intros _. rewrite E. eexists. reflexivity.
Qed.

(** ** Polling *)



(** ** Sorted lists *)

Lemma sorted_nth_error (l : list Z) :
  StronglySorted Z.le l ->
  forall i j a b, (i <= j)%nat ->
    nth_error l i = Some a -> nth_error l j = Some b -> a <= b.
Proof.
  induction 1 as [|x l Hs IH Hall]; intros i j a b Hij Hi Hj.
  - destruct i; discriminate Hi.
  - destruct i as [|i]; destruct j as [|j]; cbn in Hi, Hj.
    + injection Hi as <-. injection Hj as <-. lia.
    + injection Hi as <-. rewrite Forall_forall in Hall.
      apply Hall. eapply nth_error_In; eassumption.
    + lia.
    + apply (IH i j); [lia | assumption | assumption].
Qed.

Lemma origins_sorted_nth (df : DataFrame) :
  origins_sorted df ->
  forall i j ri rj, (i <= j)%nat ->
    nth_error df i = Some ri -> nth_error df j = Some rj ->
    origin_timestamp ri <= origin_timestamp rj.
Proof.
  intros Hs i j ri rj Hij Hi Hj.
  apply (sorted_nth_error _ Hs i j); [exact Hij | |];
    rewrite nth_error_map; [rewrite Hi | rewrite Hj]; reflexivity.
Qed.

(** * Further properties of the loader *)

Lemma valid_row_spec (hr sp : cell) :
  valid_row hr sp = true
  <-> exists h v, hr = Some h /\ sp = Some v /\ (0 < h)%Q /\ (0 <= v)%Q.
Proof.
  unfold valid_row, Loader.notna, Loader.ge0, Loader.gt0.
  destruct hr as [h|]; destruct sp as [v|]; cbn.
  - rewrite andb_true_iff, Qltb_lt, Qle_bool_iff. split.
    + intros [Hv Hh]. exists h, v. repeat split; assumption.
    + intros [h' [v' [Eh [Ev [Hh Hv]]]]]. injection Eh as <-. injection Ev as <-.
      split; assumption.
  - split; [discriminate | intros [h' [v' [_ [E _]]]]; discriminate E].
  - split; [discriminate | intros [h' [v' [E _]]]; discriminate E].
  - split; [discriminate | intros [h' [v' [E _]]]; discriminate E].
Qed.

(** The stages behind a returned frame. *)
Lemma load_returned_inv (s : Session) (df : DataFrame) :
  load_demo_data s = Returned df ->
  exists rows0 first rest,
    Loader.make_frame (session_timestamp s) (session_heart_rate s) (session_speed s)
    = Some rows0
    /\ Loader.sort_values rows0 = first :: rest
    /\ df = Loader.keep_valid
              (Loader.dropna (Loader.assign_origin (raw_timestamp first) (first :: rest)))
    /\ df <> [].
Proof.
  unfold load_demo_data.
  destruct (Loader.make_frame _ _ _) as [rows0|] eqn:Ef; [|discriminate].
  destruct (Loader.sort_values rows0) as [|first rest] eqn:Es; [discriminate|].
  cbv zeta. destruct (Loader.keep_valid _) as [|r0 df0] eqn:Ek; [discriminate|].
  intros H. injection H as <-.
  exists rows0, first, rest.
  split; [reflexivity|]. split; [exact Es|]. split; [symmetry; exact Ek|].
  discriminate.
Qed.

Lemma cleaned_In_iff (t0 : Z) (sorted : list RawRow) (r : Sample) :
  In r (Loader.keep_valid (Loader.dropna (Loader.assign_origin t0 sorted)))
  <-> exists raw, In raw sorted
        /\ valid_row (raw_heart_rate raw) (raw_speed raw) = true
        /\ r = mkSample (raw_timestamp raw) (raw_heart_rate raw) (raw_speed raw)
                 (raw_timestamp raw - t0).
Proof.
  unfold Loader.keep_valid, Loader.dropna, Loader.assign_origin, valid_row.
  rewrite !filter_In, in_map_iff. split.
  - intros [[[raw [<- Hin]] Hna] Hv]. cbn in Hna, Hv.
    exists raw. split; [exact Hin|]. split; [|reflexivity].
    now rewrite Hna, Hv.
  - intros [raw [Hin [Hv ->]]]. apply andb_true_iff in Hv. destruct Hv as [Hna Hv].
    cbn. split; [split|]; [exists raw; split; [reflexivity | exact Hin] | exact Hna | exact Hv].
Qed.

Lemma make_frame_In (ts : list Z) :
  forall hr sp rows0,
    Loader.make_frame ts hr sp = Some rows0 ->
    forall raw, In raw rows0
      <-> exists i, nth_error ts i = Some (raw_timestamp raw)
                    /\ nth_error hr i = Some (raw_heart_rate raw)
                    /\ nth_error sp i = Some (raw_speed raw).
Proof.
  induction ts as [|t ts IH]; intros [|h hr] [|v sp] rows0 H raw; cbn in H;
    try discriminate H.
  - injection H as <-. split; [intros [] | intros [[|i] [E _]]; discriminate E].
  - destruct (Loader.make_frame ts hr sp) as [rest|] eqn:E; [|discriminate H].
    cbn in H. injection H as <-. cbn [In]. rewrite (IH hr sp rest E raw). split.
    + intros [<-|[i Hi]]; [exists 0%nat; repeat split | exists (S i); exact Hi].
    + intros [[|i] [Ht [Hh Hv]]]; cbn in Ht, Hh, Hv.
      * left. destruct raw as [t' h' v']. cbn in *. congruence.
      * right. exists i. repeat split; assumption.
Qed.

Lemma load_members (s : Session) (df : DataFrame) :
  load_demo_data s = Returned df ->
  exists t0,
    In t0 (session_timestamp s)
    /\ (forall t, In t (session_timestamp s) -> t0 <= t)
    /\ (forall r, In r df
          <-> exists i t h v,
                nth_error (session_timestamp s) i = Some t
                /\ nth_error (session_heart_rate s) i = Some (Some h)
                /\ nth_error (session_speed s) i = Some (Some v)
                /\ (0 < h)%Q /\ (0 <= v)%Q
                /\ r = mkSample t (Some h) (Some v) (t - t0))
    /\ (forall r, In r df -> 0 <= origin_timestamp r).
Proof.
  intros H.
  destruct (load_demo_data_origin s df H) as [t0 [Hin [Hmin Hall]]].
  destruct (load_returned_inv s df H) as [rows0 [first [rest [Ef [Es [-> _]]]]]].
  assert (Ht0 : t0 = raw_timestamp first).
  { destruct (Loader.keep_valid _) as [|r0 df0] eqn:Ek.
    - unfold load_demo_data in H. rewrite Ef, Es in H. cbv zeta in H.
      rewrite Ek in H. discriminate H.
    - destruct (Hall r0 (or_introl eq_refl)) as [Ho _].
      assert (Hr0 : In r0 (r0 :: df0)) by now left.
      rewrite <- Ek in Hr0. apply cleaned_In in Hr0.
      destruct Hr0 as [raw [_ [Ht Ho']]]. lia. }
  exists t0. split; [exact Hin|]. split; [exact Hmin|]. split.
  - intros r. rewrite cleaned_In_iff. subst t0. split.
    + intros [raw [Hraw [Hv ->]]].
      rewrite <- Es in Hraw. apply (proj1 (sort_values_In raw rows0)) in Hraw.
      apply (proj1 (make_frame_In _ _ _ _ Ef raw)) in Hraw. destruct Hraw as [i [Ht [Hh Hsp]]].
      apply valid_row_spec in Hv. destruct Hv as [h [v [Eh [Ev [Hhp Hvp]]]]].
      exists i, (raw_timestamp raw), h, v. rewrite <- Eh, <- Ev.
      repeat split; assumption.
    + intros [i [t [h [v [Ht [Hh [Hsp [Hhp [Hvp ->]]]]]]]]].
      exists (mkRawRow t (Some h) (Some v)). split; [|split; [|reflexivity]].
      * rewrite <- Es. apply (proj2 (sort_values_In _ rows0)).
        apply (proj2 (make_frame_In _ _ _ _ Ef _)).
        exists i. repeat split; assumption.
      * apply valid_row_spec. exists h, v. repeat split; assumption.
  - intros r Hr. now apply Hall.
Qed.




(** ** Order of the loaded series *)

Lemma insert_by_timestamp_sorted (x : RawRow) (l : list RawRow) :
  StronglySorted le_raw_timestamp l ->
  StronglySorted le_raw_timestamp (Loader.insert_by_timestamp x l).
Proof.
  induction 1 as [|y l Hs IH Hall]; cbn.
  - constructor; constructor.
  - destruct (Z.leb_spec (raw_timestamp x) (raw_timestamp y)) as [Hle|Hgt].
    + constructor; [constructor; assumption|].
      constructor; [exact Hle|].
      rewrite Forall_forall in *. intros z Hz. specialize (Hall z Hz).
      unfold le_raw_timestamp in *. lia.
    + constructor; [exact IH|].
      rewrite Forall_forall in *. intros z Hz.
      apply insert_by_timestamp_In in Hz. destruct Hz as [->|Hz].
      * unfold le_raw_timestamp. lia.
      * now apply Hall.
Qed.

Lemma sort_values_sorted (l : list RawRow) :
  StronglySorted le_raw_timestamp (Loader.sort_values l).
Proof.
  unfold Loader.sort_values. induction l as [|x l IH]; cbn; [constructor|].
  now apply insert_by_timestamp_sorted.
Qed.

Lemma StronglySorted_filter {A : Type} (R : A -> A -> Prop) (f : A -> bool)
    (l : list A) :
  StronglySorted R l -> StronglySorted R (filter f l).
Proof.
  induction 1 as [|x l Hs IH Hall]; cbn; [constructor|].
  destruct (f x); [|exact IH].
  constructor; [exact IH|].
  rewrite Forall_forall in *. intros y Hy. apply filter_In in Hy. now apply Hall.
Qed.

Lemma StronglySorted_map {A B : Type} (g : A -> B) (R : B -> B -> Prop)
    (l : list A) :
  StronglySorted (fun a b => R (g a) (g b)) l -> StronglySorted R (map g l).
Proof.
  induction 1 as [|x l Hs IH Hall]; cbn; constructor; [exact IH|].
  rewrite Forall_forall in *. intros y Hy. apply in_map_iff in Hy.
  destruct Hy as [z [<- Hz]]. now apply Hall.
Qed.

Lemma cleaned_sorted (k : Sample -> Z) (t0 : Z) (sorted : list RawRow) :
  (forall a b, raw_timestamp a <= raw_timestamp b ->
     k (mkSample (raw_timestamp a) (raw_heart_rate a) (raw_speed a) (raw_timestamp a - t0))
     <= k (mkSample (raw_timestamp b) (raw_heart_rate b) (raw_speed b)
             (raw_timestamp b - t0))) ->
  StronglySorted le_raw_timestamp sorted ->
  StronglySorted Z.le
    (map k (Loader.keep_valid (Loader.dropna (Loader.assign_origin t0 sorted)))).
Proof.
  intros Hmono Hs. apply StronglySorted_map.
  unfold Loader.keep_valid, Loader.dropna. do 2 apply StronglySorted_filter.
  unfold Loader.assign_origin. apply StronglySorted_map.
  induction Hs as [|x l Hs IH Hall]; constructor; [exact IH|].
  rewrite Forall_forall in *. intros y Hy. apply Hmono. now apply Hall.
Qed.

Lemma load_sorted (s : Session) (df : DataFrame) :
  load_demo_data s = Returned df ->
  StronglySorted Z.le (map timestamp df) /\ origins_sorted df.
Proof.
  intros H.
  destruct (load_returned_inv s df H) as [rows0 [first [rest [_ [Es [-> _]]]]]].
  pose proof (sort_values_sorted rows0) as Hs. rewrite Es in Hs.
  split; [|unfold origins_sorted]; apply cleaned_sorted; try exact Hs;
    intros a b Hab; cbn; lia.
Qed.

(** X16.  The first sample of the loaded series has origin timestamp 0
    exactly when some record with the least timestamp of the session is
    valid; in that case every origin timestamp is the timestamp minus the
    first sample's timestamp.  Otherwise the origins are offsets from a
    record that was dropped. *)
Theorem first_origin_zero_iff (s : Session) (df : DataFrame) :
  load_demo_data s = Returned df ->
  exists first rest,
    df = first :: rest
    /\ (origin_timestamp first = 0
        <-> exists i t h v,
              nth_error (session_timestamp s) i = Some t
              /\ (forall t', In t' (session_timestamp s) -> t <= t')
              /\ nth_error (session_heart_rate s) i = Some (Some h)
              /\ nth_error (session_speed s) i = Some (Some v)
              /\ (0 < h)%Q /\ (0 <= v)%Q)
    /\ (origin_timestamp first = 0 ->
        forall r, In r df -> origin_timestamp r = timestamp r - timestamp first).
Proof.
  intros H.
  destruct (load_members s df H) as [t0 [Hin [Hmin [Hmem Hnn]]]].
  destruct (load_sorted s df H) as [_ Hsorted].
  destruct (load_returned_inv s df H) as [_ [_ [_ [_ [_ [_ Hne]]]]]].
  destruct df as [|first rest]; [congruence|].
  exists first, rest. split; [reflexivity|].
  assert (Hfirst : In first (first :: rest)) by now left.
  pose proof (proj1 (Hmem first) Hfirst) as [i [t [h [v [Ht [Hh [Hv [Hhp [Hvp E]]]]]]]]].
  split; [split|].
  - intros Ho. exists i, t, h, v. rewrite E in Ho. cbn in Ho.
    assert (t = t0) by lia. subst t.
    repeat split; assumption.
  - intros [j [t' [h' [v' [Ht' [Hleast [Hh' [Hv' [Hhp' Hvp']]]]]]]]].
    assert (t' = t0).
    { apply nth_error_In in Ht'. specialize (Hmin t' Ht'). specialize (Hleast t0 Hin). lia. }
    subst t'.
    assert (Hr : In (mkSample t0 (Some h') (Some v') (t0 - t0)) (first :: rest)).
    { apply Hmem. exists j, t0, h', v'. repeat split; assumption. }
    apply In_nth_error in Hr. destruct Hr as [n Hn].
    pose proof (origins_sorted_nth _ Hsorted 0%nat n first _ ltac:(lia) eq_refl Hn) as Hle.
    cbn in Hle. specialize (Hnn first Hfirst). lia.
  - intros Ho r Hr. rewrite E in Ho. cbn in Ho.
    pose proof (proj1 (Hmem r) Hr) as [i' [t' [h' [v' [_ [_ [_ [_ [_ E']]]]]]]]].
    rewrite E', E. cbn. lia.
Qed.

Lemma first_origin_zero_iff_witness :
  exists first rest,
    [mkSample 20 (Some (100 # 1)) (Some 1%Q) 10] = first :: rest
    /\ (origin_timestamp first = 0
        <-> exists i t h v,
              nth_error (session_timestamp session_late_heart_rate) i = Some t
              /\ (forall t', In t' (session_timestamp session_late_heart_rate) -> t <= t')
              /\ nth_error (session_heart_rate session_late_heart_rate) i = Some (Some h)
              /\ nth_error (session_speed session_late_heart_rate) i = Some (Some v)
              /\ (0 < h)%Q /\ (0 <= v)%Q)
    /\ (origin_timestamp first = 0 ->
        forall r, In r [mkSample 20 (Some (100 # 1)) (Some 1%Q) 10] ->
                  origin_timestamp r = timestamp r - timestamp first).
Proof.
  apply (first_origin_zero_iff session_late_heart_rate). reflexivity.
Defined.

(** * [extract_fit_data] *)

Lemma complete_rows_In (records : list FitRecord) (x : Z * Q * Q * Z) :
  In x (Fit.complete_rows records)
  <-> exists r, In r records /\ Fit.complete_row r = Some x.
Proof.
  induction records as [|r records IH]; cbn.
  - split; [intros [] | intros [r [[] _]]].
  - destruct (Fit.complete_row r) as [y|] eqn:E; cbn; rewrite IH; split.
    + intros [<-|[r' [Hin Hc]]]; [exists r; split; [now left | exact E]|].
      exists r'. split; [now right | exact Hc].
    + intros [r' [[<-|Hin] Hc]]; [left; congruence|]. right. now exists r'.
    + intros [r' [Hin Hc]]. exists r'. split; [now right | exact Hc].
    + intros [r' [[<-|Hin] Hc]]; [congruence|]. now exists r'.
Qed.

Lemma complete_rows_dates (records : list FitRecord) :
  map (fun x : Z * Q * Q * Z => Some (snd x)) (Fit.complete_rows records)
  = map fit_timestamp (filter is_complete records).
Proof.
  induction records as [|r records IH]; [reflexivity|].
  cbn [Fit.complete_rows filter]. unfold is_complete at 1.
  destruct (Fit.complete_row r) as [x|] eqn:E; [|exact IH].
  cbn [map]. rewrite IH. f_equal.
  unfold Fit.complete_row in E.
  destruct (fit_timestamp r), (fit_heart_rate r), (fit_speed r); try discriminate E.
  injection E as <-. reflexivity.
Qed.

Lemma extract_fit_data_inv (fitfile : option (list FitRecord)) (df : list FitRow) :
  extract_fit_data fitfile = Some df ->
  exists records first rest,
    fitfile = Some records
    /\ Fit.complete_rows records = first :: rest
    /\ df = map (Fit.with_origin (fst (fst (fst first)))) (first :: rest).
Proof.
  unfold extract_fit_data.
  destruct fitfile as [[|r0 records]|]; try discriminate.
  destruct (Fit.complete_rows (r0 :: records)) as [|first rest] eqn:E; [discriminate|].
  intros H. injection H as <-. exists (r0 :: records), first, rest.
  split; [reflexivity|]. split; [exact E | reflexivity].
Qed.

(** X23.  The frame [extract_fit_data] returns holds the complete records
    of the file in file order, each with its date, its timestamp in whole
    seconds (the date divided by 10^9, rounded down), its heart rate, and
    its speed times 3.6.  Its first row always has origin timestamp 0 and
    every origin timestamp is the timestamp minus the first row's
    timestamp, since incomplete records are dropped before the origin is
    taken; rows are not sorted, so origins are guaranteed non-negative only
    when the dates do not decrease. *)
Theorem extract_fit_data_frame (fitfile : option (list FitRecord))
    (df : list FitRow) :
  extract_fit_data fitfile = Some df ->
  exists records first rest,
    fitfile = Some records /\ df = first :: rest
    /\ row_origin_timestamp first = 0
    /\ (forall r, In r df ->
          row_origin_timestamp r = row_timestamp r - row_timestamp first
          /\ row_timestamp r = row_timestamp_dt r / 10 ^ 9)
    /\ map (fun r => Some (row_timestamp_dt r)) df
       = map fit_timestamp (filter is_complete records)
    /\ (forall r, In r df
          <-> exists rec dt hr sp,
                In rec records
                /\ fit_timestamp rec = Some dt /\ fit_heart_rate rec = Some hr
                /\ fit_speed rec = Some sp
                /\ r = mkFitRow (dt / 10 ^ 9) hr (sp * (36 # 10))%Q dt
                         (dt / 10 ^ 9 - row_timestamp first))
    /\ (StronglySorted Z.le (map row_timestamp_dt df) ->
        forall r, In r df -> 0 <= row_origin_timestamp r).
Proof.
  intros H.
  destruct (extract_fit_data_inv fitfile df H) as [records [x0 [rest [-> [Ec ->]]]]].
  set (t0 := fst (fst (fst x0))).
  assert (Hrow : forall x, In x (x0 :: rest) ->
            exists rec dt hr sp,
              In rec records /\ fit_timestamp rec = Some dt
              /\ fit_heart_rate rec = Some hr /\ fit_speed rec = Some sp
              /\ x = (dt / 10 ^ 9, hr, (sp * (36 # 10))%Q, dt)).
  { intros x Hx. rewrite <- Ec in Hx. apply complete_rows_In in Hx.
    destruct Hx as [rec [Hin Hc]]. unfold Fit.complete_row in Hc.
    destruct (fit_timestamp rec) as [dt|] eqn:Et; [|discriminate Hc].
    destruct (fit_heart_rate rec) as [hr|] eqn:Eh; [|discriminate Hc].
    destruct (fit_speed rec) as [sp|] eqn:Es; [|discriminate Hc].
    injection Hc as <-. exists rec, dt, hr, sp. repeat split; assumption. }
  exists records, (Fit.with_origin t0 x0), (map (Fit.with_origin t0) rest).
  split; [reflexivity|]. split; [reflexivity|].
  assert (Ht0 : row_timestamp (Fit.with_origin t0 x0) = t0).
  { unfold t0. destruct x0 as [[[ts hr] sp] dt]. reflexivity. }
  rewrite Ht0.
  split; [unfold t0; destruct x0 as [[[ts hr] sp] dt]; cbn; lia|].
  split.
  { intros r Hr. apply in_map_iff in Hr. destruct Hr as [x [<- Hx]].
    destruct (Hrow x Hx) as [rec [dt [hr [sp [_ [_ [_ [_ ->]]]]]]]].
    cbn. split; reflexivity. }
  split.
  { rewrite <- complete_rows_dates, Ec, map_map. apply map_ext.
    intros [[[ts hr] sp] dt]. reflexivity. }
  split.
  { intros r. rewrite in_map_iff. split.
    - intros [x [<- Hx]].
      destruct (Hrow x Hx) as [rec [dt [hr [sp [Hin [Et [Eh [Es ->]]]]]]]].
      exists rec, dt, hr, sp. repeat split; assumption.
    - intros [rec [dt [hr [sp [Hin [Et [Eh [Es ->]]]]]]]].
      exists (dt / 10 ^ 9, hr, (sp * (36 # 10))%Q, dt). split; [reflexivity|].
      rewrite <- Ec. apply complete_rows_In. exists rec. split; [exact Hin|].
      unfold Fit.complete_row. rewrite Et, Eh, Es. reflexivity. }
  intros Hsorted r Hr.
  apply In_nth_error in Hr. destruct Hr as [n Hn].
  assert (Hdt : row_timestamp_dt (Fit.with_origin t0 x0) <= row_timestamp_dt r).
  { apply (sorted_nth_error _ Hsorted 0%nat n); [lia|reflexivity|].
    rewrite nth_error_map, Hn. reflexivity. }
  apply nth_error_In in Hn. apply in_map_iff in Hn. destruct Hn as [x [<- Hx]].
  destruct (Hrow x Hx) as [rec [dt [hr [sp [_ [_ [_ [_ ->]]]]]]]].
  destruct (Hrow x0 (or_introl eq_refl)) as [rec0 [dt0 [hr0 [sp0 [_ [_ [_ [_ E0]]]]]]]].
  unfold t0 in *. clear Ht0. subst x0.
  cbn [Fit.with_origin row_timestamp_dt row_origin_timestamp fst snd] in *.
  assert (Hpos : 0 < 10 ^ 9) by reflexivity.
  pose proof (Z.div_le_mono dt0 dt (10 ^ 9) Hpos Hdt). lia.
Qed.

Lemma extract_fit_data_frame_witness :
  let records :=
    [mkFitRecord (Some 5000000000) None (Some 2%Q);
     mkFitRecord (Some 7500000000) (Some (90 # 1)) (Some 1%Q);
     mkFitRecord (Some 9000000000) (Some (95 # 1)) (Some 2%Q)] in
  let df := [mkFitRow 7 (90 # 1) (1 * (36 # 10))%Q 7500000000 (7 - 7);
             mkFitRow 9 (95 # 1) (2 * (36 # 10))%Q 9000000000 (9 - 7)] in
  exists records' first rest,
    Some records = Some records' /\ df = first :: rest
    /\ row_origin_timestamp first = 0
    /\ (forall r, In r df ->
          row_origin_timestamp r = row_timestamp r - row_timestamp first
          /\ row_timestamp r = row_timestamp_dt r / 10 ^ 9)
    /\ map (fun r => Some (row_timestamp_dt r)) df
       = map fit_timestamp (filter is_complete records')
    /\ (forall r, In r df
          <-> exists rec dt hr sp,
                In rec records'
                /\ fit_timestamp rec = Some dt /\ fit_heart_rate rec = Some hr
                /\ fit_speed rec = Some sp
                /\ r = mkFitRow (dt / 10 ^ 9) hr (sp * (36 # 10))%Q dt
                         (dt / 10 ^ 9 - row_timestamp first))
    /\ (StronglySorted Z.le (map row_timestamp_dt df) ->
        forall r, In r df -> 0 <= row_origin_timestamp r).
Proof.
  intros records df.
  apply (extract_fit_data_frame (Some records) df). reflexivity.
Defined.
